(** * Apex-Learn frontend: study-plan wizard and student dashboard

    A shallow embedding of the client-side logic of
    [frontend/src/pages/StudyPlanPage.tsx] (the wizard handlers, quiz
    scoring and the nudge generator) and of the [StudentDashboard]
    component (progress statistics), followed by the properties the
    specification states about them.

    Conventions of the embedding:
    - a React state variable is a field of the record [State]; a handler
      reads the values captured by the render that created it (its
      snapshot) and queues writes through the setters;
    - an [await api...] is a node of the tree [task], whose continuation
      receives either the response body or the rejection;
    - JavaScript numbers are exact rationals extended with [NaN] and the
      two infinities; counts are integers. *)

From Stdlib Require Import ZArith QArith Qround String List Lia.
From stdpp Require Import base gmap strings list pretty.

Open Scope string_scope.
Open Scope Z_scope.
Open Scope list_scope.

(** ** JavaScript primitives used by the pages *)

Module JS.

(** [number]: the finite values are rationals; what a division by zero
    yields is kept apart so that comparisons against it behave as in
    the language. The pages divide counts only, and compare the quotient
    with 0.5, 0.6 and 0.8: for counts the rounding of the double division
    does not move a quotient across these constants, so the exact
    quotient decides the comparisons the same way. *)
Inductive number : Type :=
| Num (q : Q)
| NaN
| PosInf
| NegInf.

Definition Qltb (a b : Q) : bool := negb (Qle_bool b a).

(** The order of the finite values is that of the rationals; [NaN] is
    related to nothing. *)
Definition lt (a b : number) : Prop :=
  match a, b with
  | Num x, Num y => (x < y)%Q
  | Num _, PosInf | NegInf, Num _ | NegInf, PosInf => True
  | _, _ => False
  end.

Definition le (a b : number) : Prop :=
  match a, b with
  | Num x, Num y => (x <= y)%Q
  | NaN, _ | _, NaN => False
  | NegInf, _ | _, PosInf => True
  | _, _ => False
  end.

(** [a < b] *)
Definition ltb (a b : number) : bool :=
  match a, b with
  | NaN, _ | _, NaN => false
  | Num x, Num y => Qltb x y
  | NegInf, NegInf => false
  | NegInf, _ => true
  | _, NegInf => false
  | PosInf, _ => false
  | Num _, PosInf => true
  end.

(** [a <= b] *)
Definition leb (a b : number) : bool :=
  match a, b with
  | NaN, _ | _, NaN => false
  | Num x, Num y => Qle_bool x y
  | NegInf, _ => true
  | _, NegInf => false
  | _, PosInf => true
  | PosInf, Num _ => false
  end.

(** [a / b] on finite operands *)
Definition div (a b : Q) : number :=
  if Qeq_bool b 0 then
    if Qeq_bool a 0 then NaN
    else if Qltb 0 a then PosInf else NegInf
  else Num (a / b).

(** [a * b] with a finite right operand different from zero *)
Definition scale (a : number) (b : Q) : number :=
  match a with
  | Num x => Num (x * b)
  | NaN => NaN
  | PosInf => if Qltb 0 b then PosInf else NegInf
  | NegInf => if Qltb 0 b then NegInf else PosInf
  end.

Definition of_nat (n : nat) : Q := inject_Z (Z.of_nat n).

(** [Math.round]: nearest integer, halves towards plus infinity *)
Definition round (x : Q) : Z := Qfloor (x + (1 # 2)).

(** Truthiness of a string, and of an optional string property *)
Definition truthy (s : string) : bool := negb (s =? "")%string.

Definition truthy_opt (o : option string) : bool :=
  match o with
  | Some s => truthy s
  | None => false
  end.

(** [a || d] where [a] is a string *)
Definition or_str (a d : string) : string := if truthy a then a else d.

(** [a || d] where [a] may be [undefined] or [null] *)
Definition or_else (o : option string) (d : string) : string :=
  match o with
  | Some s => or_str s d
  | None => d
  end.

(** [arr.join(sep)] *)
Definition join (sep : string) (l : list string) : string :=
  String.concat sep l.

(** [new Set(...)] keeps its members in insertion order; [add] of a
    member already present leaves the set as it is. *)
Definition set_add (s : list string) (x : string) : list string :=
  if bool_decide (x ∈ s) then s else s ++ [x].

(** [[...new Set(l)]] *)
Definition Set_of (l : list string) : list string :=
  fold_left set_add l [].

(** The same list described by recursion on the input: an element is
    kept the first time it is met. *)
Fixpoint first_occurrences (seen l : list string) : list string :=
  match l with
  | [] => []
  | x :: r =>
      if bool_decide (x ∈ seen) then first_occurrences seen r
      else x :: first_occurrences (seen ++ [x]) r
  end.

End JS.

(** ** Data model (interfaces of StudyPlanPage.tsx and of the dashboard) *)

Module StudyTask.
Record t : Type := mk {
  id : Z;
  topic : string;
  subject : string;
  subtopic : string;
  date : string;
  time : Z;
  difficulty : string;
  quest_type : string;
  rewards : string;
  description : string;
  completed : bool;
  progress : Z;
  chapter : string;
}.
End StudyTask.

(** [StudyPlan]: an object whose own properties are the weeks; the list
    holds them in the order [Object.values] enumerates them. *)
Definition StudyPlan : Type := list (string * list StudyTask.t).

Module Progress.
Record t : Type := mk {
  task_id : string;
  completed : bool;
  score : option Q;
}.
End Progress.

Module Stats.
Record t : Type := mk {
  completedTasks : Z;
  totalTasks : Z;
  currentStreak : Z;
  weeklyGoal : Z;
  totalPoints : Z;
  completedThisWeek : Z;
  averageScore : Q;
}.
End Stats.

Module QuizQuestion.
Record t : Type := mk {
  question : string;
  options : list string;
  answer : string;
  chapter : option string;
  topic : option string;
  marks : option Z;
}.
End QuizQuestion.

(** ** Student dashboard (component [StudentDashboard]) *)

Module Dashboard.

(** [progress.reduce((total, p) => total + (p.score ? p.score * 10 : 0), 0)] *)
Definition calculateTotalXP (progress : list Progress.t) : Q :=
  fold_left
    (fun total p =>
       total + match Progress.score p with
               | Some s => if Qeq_bool s 0 then 0 else s * 10
               | None => 0
               end)%Q
    progress 0%Q.

Record ProgressStats : Type := {
  completed : nat;
  total : nat;
  averageScore : Z;
}.

(** [p.score || 0] *)
Definition score_or_0 (p : Progress.t) : Q :=
  match Progress.score p with
  | Some s => s
  | None => 0%Q
  end.

(** [completed || 1] *)
Definition or_1 (n : nat) : nat :=
  match n with
  | O => 1%nat
  | _ => n
  end.

Definition getProgressStats (progress : list Progress.t) : ProgressStats :=
  let completed := length (filter (fun p => Progress.completed p = true) progress) in
  let total := length progress in
  let averageScore :=
    (fold_left (fun sum p => sum + score_or_0 p) progress 0
     / JS.of_nat (or_1 completed))%Q in
  {| completed := completed; total := total;
     averageScore := JS.round averageScore |}.

(** Sum of a list of rationals *)
Definition Qsum (l : list Q) : Q := fold_right Qplus 0%Q l.


End Dashboard.

(** ** The study-plan wizard (component [StudyPlanPage]) *)

Module StudyPlanPage.

(** *** Component state: one field per [useState] hook the handlers use *)

Record State : Type := mkState {
  step : Z;
  board : string;
  classNum : Z;
  selectedSubject : string;
  extraChapters : list string;
  weakChapters : list string;
  studyPlan : StudyPlan;
  progress : list Progress.t;
  stats : Stats.t;
  error : option string;
  previousMarks : option JS.number;
  knowledgeLevel : string;
  initialQuiz : list QuizQuestion.t;
  topicQuiz : list QuizQuestion.t;
  chapterQuiz : list QuizQuestion.t;
  threeChapterQuiz : list QuizQuestion.t;
  quizAnswers : gmap nat string;
  topicQuizAnswers : gmap nat string;
  chapterQuizAnswers : gmap nat string;
  threeChapterQuizAnswers : gmap nat string;
  quizScore : option nat;
  selectedChapter : option string;
  selectedTopic : option string;
  currentSubtopic : option string;
  completedChapters : list string;
  completedTopics : list string;
  missedDate : string;
  nudge : string;
}.

Definition setStep (v : Z) (s : State) : State :=
  mkState v (s.(board)) (s.(classNum)) (s.(selectedSubject))
    (s.(extraChapters)) (s.(weakChapters)) (s.(studyPlan)) (s.(progress))
    (s.(stats)) (s.(error)) (s.(previousMarks)) (s.(knowledgeLevel))
    (s.(initialQuiz)) (s.(topicQuiz)) (s.(chapterQuiz))
    (s.(threeChapterQuiz)) (s.(quizAnswers)) (s.(topicQuizAnswers))
    (s.(chapterQuizAnswers)) (s.(threeChapterQuizAnswers)) (s.(quizScore))
    (s.(selectedChapter)) (s.(selectedTopic)) (s.(currentSubtopic))
    (s.(completedChapters)) (s.(completedTopics)) (s.(missedDate))
    (s.(nudge)).

Definition setWeakChapters (v : list string) (s : State) : State :=
  mkState (s.(step)) (s.(board)) (s.(classNum)) (s.(selectedSubject))
    (s.(extraChapters)) v (s.(studyPlan)) (s.(progress)) (s.(stats))
    (s.(error)) (s.(previousMarks)) (s.(knowledgeLevel)) (s.(initialQuiz))
    (s.(topicQuiz)) (s.(chapterQuiz)) (s.(threeChapterQuiz))
    (s.(quizAnswers)) (s.(topicQuizAnswers)) (s.(chapterQuizAnswers))
    (s.(threeChapterQuizAnswers)) (s.(quizScore)) (s.(selectedChapter))
    (s.(selectedTopic)) (s.(currentSubtopic)) (s.(completedChapters))
    (s.(completedTopics)) (s.(missedDate)) (s.(nudge)).

Definition setStudyPlan (v : StudyPlan) (s : State) : State :=
  mkState (s.(step)) (s.(board)) (s.(classNum)) (s.(selectedSubject))
    (s.(extraChapters)) (s.(weakChapters)) v (s.(progress)) (s.(stats))
    (s.(error)) (s.(previousMarks)) (s.(knowledgeLevel)) (s.(initialQuiz))
    (s.(topicQuiz)) (s.(chapterQuiz)) (s.(threeChapterQuiz))
    (s.(quizAnswers)) (s.(topicQuizAnswers)) (s.(chapterQuizAnswers))
    (s.(threeChapterQuizAnswers)) (s.(quizScore)) (s.(selectedChapter))
    (s.(selectedTopic)) (s.(currentSubtopic)) (s.(completedChapters))
    (s.(completedTopics)) (s.(missedDate)) (s.(nudge)).

Definition setProgress (v : list Progress.t) (s : State) : State :=
  mkState (s.(step)) (s.(board)) (s.(classNum)) (s.(selectedSubject))
    (s.(extraChapters)) (s.(weakChapters)) (s.(studyPlan)) v (s.(stats))
    (s.(error)) (s.(previousMarks)) (s.(knowledgeLevel)) (s.(initialQuiz))
    (s.(topicQuiz)) (s.(chapterQuiz)) (s.(threeChapterQuiz))
    (s.(quizAnswers)) (s.(topicQuizAnswers)) (s.(chapterQuizAnswers))
    (s.(threeChapterQuizAnswers)) (s.(quizScore)) (s.(selectedChapter))
    (s.(selectedTopic)) (s.(currentSubtopic)) (s.(completedChapters))
    (s.(completedTopics)) (s.(missedDate)) (s.(nudge)).

Definition setError (v : option string) (s : State) : State :=
  mkState (s.(step)) (s.(board)) (s.(classNum)) (s.(selectedSubject))
    (s.(extraChapters)) (s.(weakChapters)) (s.(studyPlan)) (s.(progress))
    (s.(stats)) v (s.(previousMarks)) (s.(knowledgeLevel))
    (s.(initialQuiz)) (s.(topicQuiz)) (s.(chapterQuiz))
    (s.(threeChapterQuiz)) (s.(quizAnswers)) (s.(topicQuizAnswers))
    (s.(chapterQuizAnswers)) (s.(threeChapterQuizAnswers)) (s.(quizScore))
    (s.(selectedChapter)) (s.(selectedTopic)) (s.(currentSubtopic))
    (s.(completedChapters)) (s.(completedTopics)) (s.(missedDate))
    (s.(nudge)).

Definition setPreviousMarks (v : option JS.number) (s : State) : State :=
  mkState (s.(step)) (s.(board)) (s.(classNum)) (s.(selectedSubject))
    (s.(extraChapters)) (s.(weakChapters)) (s.(studyPlan)) (s.(progress))
    (s.(stats)) (s.(error)) v (s.(knowledgeLevel)) (s.(initialQuiz))
    (s.(topicQuiz)) (s.(chapterQuiz)) (s.(threeChapterQuiz))
    (s.(quizAnswers)) (s.(topicQuizAnswers)) (s.(chapterQuizAnswers))
    (s.(threeChapterQuizAnswers)) (s.(quizScore)) (s.(selectedChapter))
    (s.(selectedTopic)) (s.(currentSubtopic)) (s.(completedChapters))
    (s.(completedTopics)) (s.(missedDate)) (s.(nudge)).

Definition setKnowledgeLevel (v : string) (s : State) : State :=
  mkState (s.(step)) (s.(board)) (s.(classNum)) (s.(selectedSubject))
    (s.(extraChapters)) (s.(weakChapters)) (s.(studyPlan)) (s.(progress))
    (s.(stats)) (s.(error)) (s.(previousMarks)) v (s.(initialQuiz))
    (s.(topicQuiz)) (s.(chapterQuiz)) (s.(threeChapterQuiz))
    (s.(quizAnswers)) (s.(topicQuizAnswers)) (s.(chapterQuizAnswers))
    (s.(threeChapterQuizAnswers)) (s.(quizScore)) (s.(selectedChapter))
    (s.(selectedTopic)) (s.(currentSubtopic)) (s.(completedChapters))
    (s.(completedTopics)) (s.(missedDate)) (s.(nudge)).

Definition setQuizScore (v : option nat) (s : State) : State :=
  mkState (s.(step)) (s.(board)) (s.(classNum)) (s.(selectedSubject))
    (s.(extraChapters)) (s.(weakChapters)) (s.(studyPlan)) (s.(progress))
    (s.(stats)) (s.(error)) (s.(previousMarks)) (s.(knowledgeLevel))
    (s.(initialQuiz)) (s.(topicQuiz)) (s.(chapterQuiz))
    (s.(threeChapterQuiz)) (s.(quizAnswers)) (s.(topicQuizAnswers))
    (s.(chapterQuizAnswers)) (s.(threeChapterQuizAnswers)) v
    (s.(selectedChapter)) (s.(selectedTopic)) (s.(currentSubtopic))
    (s.(completedChapters)) (s.(completedTopics)) (s.(missedDate))
    (s.(nudge)).

Definition setSelectedChapter (v : option string) (s : State) : State :=
  mkState (s.(step)) (s.(board)) (s.(classNum)) (s.(selectedSubject))
    (s.(extraChapters)) (s.(weakChapters)) (s.(studyPlan)) (s.(progress))
    (s.(stats)) (s.(error)) (s.(previousMarks)) (s.(knowledgeLevel))
    (s.(initialQuiz)) (s.(topicQuiz)) (s.(chapterQuiz))
    (s.(threeChapterQuiz)) (s.(quizAnswers)) (s.(topicQuizAnswers))
    (s.(chapterQuizAnswers)) (s.(threeChapterQuizAnswers)) (s.(quizScore))
    v (s.(selectedTopic)) (s.(currentSubtopic)) (s.(completedChapters))
    (s.(completedTopics)) (s.(missedDate)) (s.(nudge)).

Definition setSelectedTopic (v : option string) (s : State) : State :=
  mkState (s.(step)) (s.(board)) (s.(classNum)) (s.(selectedSubject))
    (s.(extraChapters)) (s.(weakChapters)) (s.(studyPlan)) (s.(progress))
    (s.(stats)) (s.(error)) (s.(previousMarks)) (s.(knowledgeLevel))
    (s.(initialQuiz)) (s.(topicQuiz)) (s.(chapterQuiz))
    (s.(threeChapterQuiz)) (s.(quizAnswers)) (s.(topicQuizAnswers))
    (s.(chapterQuizAnswers)) (s.(threeChapterQuizAnswers)) (s.(quizScore))
    (s.(selectedChapter)) v (s.(currentSubtopic)) (s.(completedChapters))
    (s.(completedTopics)) (s.(missedDate)) (s.(nudge)).

Definition setCurrentSubtopic (v : option string) (s : State) : State :=
  mkState (s.(step)) (s.(board)) (s.(classNum)) (s.(selectedSubject))
    (s.(extraChapters)) (s.(weakChapters)) (s.(studyPlan)) (s.(progress))
    (s.(stats)) (s.(error)) (s.(previousMarks)) (s.(knowledgeLevel))
    (s.(initialQuiz)) (s.(topicQuiz)) (s.(chapterQuiz))
    (s.(threeChapterQuiz)) (s.(quizAnswers)) (s.(topicQuizAnswers))
    (s.(chapterQuizAnswers)) (s.(threeChapterQuizAnswers)) (s.(quizScore))
    (s.(selectedChapter)) (s.(selectedTopic)) v (s.(completedChapters))
    (s.(completedTopics)) (s.(missedDate)) (s.(nudge)).

Definition setCompletedChapters (v : list string) (s : State) : State :=
  mkState (s.(step)) (s.(board)) (s.(classNum)) (s.(selectedSubject))
    (s.(extraChapters)) (s.(weakChapters)) (s.(studyPlan)) (s.(progress))
    (s.(stats)) (s.(error)) (s.(previousMarks)) (s.(knowledgeLevel))
    (s.(initialQuiz)) (s.(topicQuiz)) (s.(chapterQuiz))
    (s.(threeChapterQuiz)) (s.(quizAnswers)) (s.(topicQuizAnswers))
    (s.(chapterQuizAnswers)) (s.(threeChapterQuizAnswers)) (s.(quizScore))
    (s.(selectedChapter)) (s.(selectedTopic)) (s.(currentSubtopic)) v
    (s.(completedTopics)) (s.(missedDate)) (s.(nudge)).

Definition setCompletedTopics (v : list string) (s : State) : State :=
  mkState (s.(step)) (s.(board)) (s.(classNum)) (s.(selectedSubject))
    (s.(extraChapters)) (s.(weakChapters)) (s.(studyPlan)) (s.(progress))
    (s.(stats)) (s.(error)) (s.(previousMarks)) (s.(knowledgeLevel))
    (s.(initialQuiz)) (s.(topicQuiz)) (s.(chapterQuiz))
    (s.(threeChapterQuiz)) (s.(quizAnswers)) (s.(topicQuizAnswers))
    (s.(chapterQuizAnswers)) (s.(threeChapterQuizAnswers)) (s.(quizScore))
    (s.(selectedChapter)) (s.(selectedTopic)) (s.(currentSubtopic))
    (s.(completedChapters)) v (s.(missedDate)) (s.(nudge)).

Definition setMissedDate (v : string) (s : State) : State :=
  mkState (s.(step)) (s.(board)) (s.(classNum)) (s.(selectedSubject))
    (s.(extraChapters)) (s.(weakChapters)) (s.(studyPlan)) (s.(progress))
    (s.(stats)) (s.(error)) (s.(previousMarks)) (s.(knowledgeLevel))
    (s.(initialQuiz)) (s.(topicQuiz)) (s.(chapterQuiz))
    (s.(threeChapterQuiz)) (s.(quizAnswers)) (s.(topicQuizAnswers))
    (s.(chapterQuizAnswers)) (s.(threeChapterQuizAnswers)) (s.(quizScore))
    (s.(selectedChapter)) (s.(selectedTopic)) (s.(currentSubtopic))
    (s.(completedChapters)) (s.(completedTopics)) v (s.(nudge)).

Definition setNudge (v : string) (s : State) : State :=
  mkState (s.(step)) (s.(board)) (s.(classNum)) (s.(selectedSubject))
    (s.(extraChapters)) (s.(weakChapters)) (s.(studyPlan)) (s.(progress))
    (s.(stats)) (s.(error)) (s.(previousMarks)) (s.(knowledgeLevel))
    (s.(initialQuiz)) (s.(topicQuiz)) (s.(chapterQuiz))
    (s.(threeChapterQuiz)) (s.(quizAnswers)) (s.(topicQuizAnswers))
    (s.(chapterQuizAnswers)) (s.(threeChapterQuizAnswers)) (s.(quizScore))
    (s.(selectedChapter)) (s.(selectedTopic)) (s.(currentSubtopic))
    (s.(completedChapters)) (s.(completedTopics)) (s.(missedDate)) v.

Definition setSelectedSubject (v : string) (s : State) : State :=
  mkState (s.(step)) (s.(board)) (s.(classNum)) v (s.(extraChapters))
    (s.(weakChapters)) (s.(studyPlan)) (s.(progress)) (s.(stats))
    (s.(error)) (s.(previousMarks)) (s.(knowledgeLevel)) (s.(initialQuiz))
    (s.(topicQuiz)) (s.(chapterQuiz)) (s.(threeChapterQuiz))
    (s.(quizAnswers)) (s.(topicQuizAnswers)) (s.(chapterQuizAnswers))
    (s.(threeChapterQuizAnswers)) (s.(quizScore)) (s.(selectedChapter))
    (s.(selectedTopic)) (s.(currentSubtopic)) (s.(completedChapters))
    (s.(completedTopics)) (s.(missedDate)) (s.(nudge)).

Definition setInitialQuiz (v : list QuizQuestion.t) (s : State) : State :=
  mkState (s.(step)) (s.(board)) (s.(classNum)) (s.(selectedSubject))
    (s.(extraChapters)) (s.(weakChapters)) (s.(studyPlan)) (s.(progress))
    (s.(stats)) (s.(error)) (s.(previousMarks)) (s.(knowledgeLevel)) v
    (s.(topicQuiz)) (s.(chapterQuiz)) (s.(threeChapterQuiz))
    (s.(quizAnswers)) (s.(topicQuizAnswers)) (s.(chapterQuizAnswers))
    (s.(threeChapterQuizAnswers)) (s.(quizScore)) (s.(selectedChapter))
    (s.(selectedTopic)) (s.(currentSubtopic)) (s.(completedChapters))
    (s.(completedTopics)) (s.(missedDate)) (s.(nudge)).

Definition setTopicQuiz (v : list QuizQuestion.t) (s : State) : State :=
  mkState (s.(step)) (s.(board)) (s.(classNum)) (s.(selectedSubject))
    (s.(extraChapters)) (s.(weakChapters)) (s.(studyPlan)) (s.(progress))
    (s.(stats)) (s.(error)) (s.(previousMarks)) (s.(knowledgeLevel))
    (s.(initialQuiz)) v (s.(chapterQuiz)) (s.(threeChapterQuiz))
    (s.(quizAnswers)) (s.(topicQuizAnswers)) (s.(chapterQuizAnswers))
    (s.(threeChapterQuizAnswers)) (s.(quizScore)) (s.(selectedChapter))
    (s.(selectedTopic)) (s.(currentSubtopic)) (s.(completedChapters))
    (s.(completedTopics)) (s.(missedDate)) (s.(nudge)).

Definition setChapterQuiz (v : list QuizQuestion.t) (s : State) : State :=
  mkState (s.(step)) (s.(board)) (s.(classNum)) (s.(selectedSubject))
    (s.(extraChapters)) (s.(weakChapters)) (s.(studyPlan)) (s.(progress))
    (s.(stats)) (s.(error)) (s.(previousMarks)) (s.(knowledgeLevel))
    (s.(initialQuiz)) (s.(topicQuiz)) v (s.(threeChapterQuiz))
    (s.(quizAnswers)) (s.(topicQuizAnswers)) (s.(chapterQuizAnswers))
    (s.(threeChapterQuizAnswers)) (s.(quizScore)) (s.(selectedChapter))
    (s.(selectedTopic)) (s.(currentSubtopic)) (s.(completedChapters))
    (s.(completedTopics)) (s.(missedDate)) (s.(nudge)).

Definition setThreeChapterQuiz (v : list QuizQuestion.t) (s : State) : State :=
  mkState (s.(step)) (s.(board)) (s.(classNum)) (s.(selectedSubject))
    (s.(extraChapters)) (s.(weakChapters)) (s.(studyPlan)) (s.(progress))
    (s.(stats)) (s.(error)) (s.(previousMarks)) (s.(knowledgeLevel))
    (s.(initialQuiz)) (s.(topicQuiz)) (s.(chapterQuiz)) v
    (s.(quizAnswers)) (s.(topicQuizAnswers)) (s.(chapterQuizAnswers))
    (s.(threeChapterQuizAnswers)) (s.(quizScore)) (s.(selectedChapter))
    (s.(selectedTopic)) (s.(currentSubtopic)) (s.(completedChapters))
    (s.(completedTopics)) (s.(missedDate)) (s.(nudge)).

Definition setQuizAnswers (v : gmap nat string) (s : State) : State :=
  mkState (s.(step)) (s.(board)) (s.(classNum)) (s.(selectedSubject))
    (s.(extraChapters)) (s.(weakChapters)) (s.(studyPlan)) (s.(progress))
    (s.(stats)) (s.(error)) (s.(previousMarks)) (s.(knowledgeLevel))
    (s.(initialQuiz)) (s.(topicQuiz)) (s.(chapterQuiz))
    (s.(threeChapterQuiz)) v (s.(topicQuizAnswers))
    (s.(chapterQuizAnswers)) (s.(threeChapterQuizAnswers)) (s.(quizScore))
    (s.(selectedChapter)) (s.(selectedTopic)) (s.(currentSubtopic))
    (s.(completedChapters)) (s.(completedTopics)) (s.(missedDate))
    (s.(nudge)).

Definition setTopicQuizAnswers (v : gmap nat string) (s : State) : State :=
  mkState (s.(step)) (s.(board)) (s.(classNum)) (s.(selectedSubject))
    (s.(extraChapters)) (s.(weakChapters)) (s.(studyPlan)) (s.(progress))
    (s.(stats)) (s.(error)) (s.(previousMarks)) (s.(knowledgeLevel))
    (s.(initialQuiz)) (s.(topicQuiz)) (s.(chapterQuiz))
    (s.(threeChapterQuiz)) (s.(quizAnswers)) v (s.(chapterQuizAnswers))
    (s.(threeChapterQuizAnswers)) (s.(quizScore)) (s.(selectedChapter))
    (s.(selectedTopic)) (s.(currentSubtopic)) (s.(completedChapters))
    (s.(completedTopics)) (s.(missedDate)) (s.(nudge)).

Definition setChapterQuizAnswers (v : gmap nat string) (s : State) : State :=
  mkState (s.(step)) (s.(board)) (s.(classNum)) (s.(selectedSubject))
    (s.(extraChapters)) (s.(weakChapters)) (s.(studyPlan)) (s.(progress))
    (s.(stats)) (s.(error)) (s.(previousMarks)) (s.(knowledgeLevel))
    (s.(initialQuiz)) (s.(topicQuiz)) (s.(chapterQuiz))
    (s.(threeChapterQuiz)) (s.(quizAnswers)) (s.(topicQuizAnswers)) v
    (s.(threeChapterQuizAnswers)) (s.(quizScore)) (s.(selectedChapter))
    (s.(selectedTopic)) (s.(currentSubtopic)) (s.(completedChapters))
    (s.(completedTopics)) (s.(missedDate)) (s.(nudge)).

Definition setThreeChapterQuizAnswers (v : gmap nat string) (s : State) : State :=
  mkState (s.(step)) (s.(board)) (s.(classNum)) (s.(selectedSubject))
    (s.(extraChapters)) (s.(weakChapters)) (s.(studyPlan)) (s.(progress))
    (s.(stats)) (s.(error)) (s.(previousMarks)) (s.(knowledgeLevel))
    (s.(initialQuiz)) (s.(topicQuiz)) (s.(chapterQuiz))
    (s.(threeChapterQuiz)) (s.(quizAnswers)) (s.(topicQuizAnswers))
    (s.(chapterQuizAnswers)) v (s.(quizScore)) (s.(selectedChapter))
    (s.(selectedTopic)) (s.(currentSubtopic)) (s.(completedChapters))
    (s.(completedTopics)) (s.(missedDate)) (s.(nudge)).

(** The state of the first render: the initial values of the hooks. *)
Definition initialState : State :=
  {| step := 0; board := ""; classNum := 9; selectedSubject := "";
     extraChapters := []; weakChapters := []; studyPlan := [];
     progress := [];
     stats := Stats.mk 0 0 0 0 0 0 0;
     error := None; previousMarks := None; knowledgeLevel := "beginner";
     initialQuiz := []; topicQuiz := []; chapterQuiz := [];
     threeChapterQuiz := [];
     quizAnswers := ∅; topicQuizAnswers := ∅; chapterQuizAnswers := ∅;
     threeChapterQuizAnswers := ∅;
     quizScore := None; selectedChapter := None; selectedTopic := None;
     currentSubtopic := None; completedChapters := [];
     completedTopics := []; missedDate := ""; nudge := "" |}.

(** *** Calls to the REST collaborator *)

(** Outcome of an awaited call: the response body, or a rejection whose
    [detail] is [err.response?.data?.detail]. *)
Inductive result (A : Type) : Type :=
| Resolved (data : A)
| Rejected (detail : option string).
Arguments Resolved {A} data.
Arguments Rejected {A} detail.

(** Body of [POST /study-plans] *)
Record PlanRequest : Type := {
  pr_subject : string;
  pr_board : string;
  pr_class_num : Z;
  pr_start_date : string;
  pr_end_date : string;
  pr_extra_chapters : list string;
  pr_weak_chapters : list string;
  pr_personality_type : string;
}.

(** What a handler does after it was invoked: it ends with the state
    its setter calls produce, or it awaits a call and goes on with the
    outcome. *)
Inductive task : Type :=
| Done (s : State)
| PostStudyPlans (body : PlanRequest) (k : result StudyPlan -> task)
| PutTaskProgress (subject week : string) (task_id : Z)
    (completed : bool) (progress : Z) (k : result StudyPlan -> task)
| PutProgress (task_id : string) (completed : bool)
    (score : option JS.number) (k : result Progress.t -> task)
| PutReschedule (subject missed_date : string)
    (k : result StudyPlan -> task).

(** [await t; rest] *)
Fixpoint andThen (t : task) (rest : State -> task) : task :=
  match t with
  | Done s => rest s
  | PostStudyPlans b k => PostStudyPlans b (fun r => andThen (k r) rest)
  | PutTaskProgress sb w i c p k =>
      PutTaskProgress sb w i c p (fun r => andThen (k r) rest)
  | PutProgress i c sc k => PutProgress i c sc (fun r => andThen (k r) rest)
  | PutReschedule sb d k => PutReschedule sb d (fun r => andThen (k r) rest)
  end.

(** The requests a task sends and the state it ends in, against a
    collaborator that answers each kind of call by a function of the
    request. *)
Inductive request : Type :=
| ReqPostStudyPlans (body : PlanRequest)
| ReqPutTaskProgress (subject week : string) (task_id : Z)
    (completed : bool) (progress : Z)
| ReqPutProgress (task_id : string) (completed : bool)
    (score : option JS.number)
| ReqPutReschedule (subject missed_date : string).

Record server : Type := {
  on_study_plans : PlanRequest -> result StudyPlan;
  on_task_progress : string -> string -> Z -> bool -> Z -> result StudyPlan;
  on_progress : string -> bool -> option JS.number -> result Progress.t;
  on_reschedule : string -> string -> result StudyPlan;
}.

Fixpoint run (srv : server) (t : task) : list request * State :=
  match t with
  | Done s => ([], s)
  | PostStudyPlans b k =>
      let '(log, s) := run srv (k (on_study_plans srv b)) in
      (ReqPostStudyPlans b :: log, s)
  | PutTaskProgress sb w i c p k =>
      let '(log, s) := run srv (k (on_task_progress srv sb w i c p)) in
      (ReqPutTaskProgress sb w i c p :: log, s)
  | PutProgress i c sc k =>
      let '(log, s) := run srv (k (on_progress srv i c sc)) in
      (ReqPutProgress i c sc :: log, s)
  | PutReschedule sb d k =>
      let '(log, s) := run srv (k (on_reschedule srv sb d)) in
      (ReqPutReschedule sb d :: log, s)
  end.

(** Every way a task can end, whatever the collaborator answers. *)
Inductive ends : task -> State -> Prop :=
| ends_done s : ends (Done s) s
| ends_study_plans b k r s :
    ends (k r) s -> ends (PostStudyPlans b k) s
| ends_task_progress sb w i c p k r s :
    ends (k r) s -> ends (PutTaskProgress sb w i c p k) s
| ends_progress i c sc k r s :
    ends (k r) s -> ends (PutProgress i c sc k) s
| ends_reschedule sb d k r s :
    ends (k r) s -> ends (PutReschedule sb d k) s.

(** *** Nudge generator *)

(** [total > 0 ? completed / total : 0] *)
Definition rate (completed total : Z) : Q :=
  if 0 <? total then (inject_Z completed / inject_Z total)%Q else 0%Q.

Definition generateNudge (completed total missed : Z) (weak : list string)
  : string :=
  let rate := rate completed total in
  if 0 <? missed then
    "Oops, you missed " +:+ pretty missed +:+ " tasks! Let's focus on "
      +:+ JS.or_str (JS.join ", " (take 2 weak)) "your studies"
      +:+ " and conquer them together!"
  else if negb (length weak =? 0)%nat then
    "You're making progress, but let's strengthen your skills in "
      +:+ JS.join ", " (take 2 weak) +:+ ". Keep pushing, brave scholar!"
  else if JS.Qltb (8 # 10) rate then
    "You're dominating the knowledge kingdom like a true champion! Keep ruling!"
  else if JS.Qltb (5 # 10) rate then
    "Great progress, adventurer! You're halfway to mastering this realm. Let's keep exploring!"
  else
    "Every step counts, young scholar! Let's dive into the next quest and build your skills!".

(** *** Quiz scoring *)

Module QuizType.
Inductive t : Type := initial | topic | chapter | three_chapter.

Definition name (ty : t) : string :=
  match ty with
  | initial => "initial"
  | topic => "topic"
  | chapter => "chapter"
  | three_chapter => "three_chapter"
  end.

Definition eqb (a b : t) : bool :=
  match a, b with
  | initial, initial | topic, topic | chapter, chapter
  | three_chapter, three_chapter => true
  | _, _ => false
  end.
End QuizType.

(** [l.forEach((x, i) => ...)] over local variables [acc] *)
Fixpoint forEach {A L : Type} (body : L -> A -> nat -> L)
  (l : list A) (i : nat) (acc : L) : L :=
  match l with
  | [] => acc
  | x :: r => forEach body r (S i) (body acc x i)
  end.

(** The value of an optional property that was tested truthy. *)
Definition value (o : option string) : string := default "" o.

(** [answers[i] === q.answer] *)
Definition correct (answers : gmap nat string) (i : nat)
  (q : QuizQuestion.t) : bool :=
  bool_decide (answers !! i = Some (QuizQuestion.answer q)).

(** Loop body of [handleInitialQuizSubmit]; [acc] is [(score, weak)]. *)
Definition initialBody (answers : gmap nat string)
  (acc : nat * list string) (q : QuizQuestion.t) (i : nat)
  : nat * list string :=
  if correct answers i q then (S (fst acc), snd acc)
  else if JS.truthy_opt (QuizQuestion.chapter q)
       then (fst acc, snd acc ++ [value (QuizQuestion.chapter q)])
  else acc.

(** Loop body of [handleQuizSubmit]. *)
Definition quizBody (ty : QuizType.t) (selectedChapter : option string)
  (answers : gmap nat string)
  (acc : nat * list string) (q : QuizQuestion.t) (i : nat)
  : nat * list string :=
  if correct answers i q then (S (fst acc), snd acc)
  else if (QuizType.eqb ty QuizType.initial
           || QuizType.eqb ty QuizType.three_chapter)
          && JS.truthy_opt (QuizQuestion.chapter q)
       then (fst acc, snd acc ++ [value (QuizQuestion.chapter q)])
  else if QuizType.eqb ty QuizType.chapter
          && JS.truthy_opt (QuizQuestion.topic q)
       then (fst acc,
             snd acc ++ [JS.or_else (QuizQuestion.chapter q)
                           (JS.or_else selectedChapter "")])
  else acc.

(** *** Handlers *)

(** Readings of the clock a handler takes. *)
Record Clock : Type := {
  startDate : string;   (* today, as YYYY-MM-DD *)
  endDate : string;     (* six months from today *)
  now : Z;              (* Date.now() *)
}.

Definition handleMarksSubmit (s : State) : State :=
  match s.(previousMarks) with
  | Some previousMarks =>
      let level :=
        if JS.ltb previousMarks (JS.Num 60) then "beginner"
        else if JS.leb previousMarks (JS.Num 75) then "intermediate"
        else "advanced" in
      setStep 4 (setKnowledgeLevel level s)
  | None => setError (Some "Please enter your marks") s
  end.

(** [s] is the render the handler closes over, [cur] the state with the
    writes queued before the call. *)
Definition handleInitialQuizSubmit (clk : Clock) (s cur : State) : task :=
  let '(score, weak) :=
    forEach (initialBody s.(quizAnswers)) s.(initialQuiz) 0%nat (0%nat, []) in
  let cur := setQuizScore (Some score) cur in
  let cur := setWeakChapters weak cur in
  PostStudyPlans
    {| pr_subject := s.(selectedSubject);
       pr_board := s.(board);
       pr_class_num := s.(classNum);
       pr_start_date := clk.(startDate);
       pr_end_date := clk.(endDate);
       pr_extra_chapters := s.(extraChapters);
       pr_weak_chapters := weak;
       pr_personality_type := "balanced" |}
    (fun res =>
       match res with
       | Resolved plan_data => Done (setStep 6 (setStudyPlan plan_data cur))
       | Rejected detail =>
           Done (setError
                   (Some (JS.or_else detail "Failed to generate study plan"))
                   cur)
       end).

(** [studyPlan[week]] *)
Definition weekTasks (plan : StudyPlan) (week : string)
  : option (list StudyTask.t) :=
  snd <$> List.find (fun kv => (fst kv =? week)%string) plan.

(** [studyPlan[week]?.find(t => t.id === taskId)] *)
Definition findTask (plan : StudyPlan) (week : string) (taskId : Z)
  : option StudyTask.t :=
  match weekTasks plan week with
  | Some tasks => List.find (fun t => StudyTask.id t =? taskId) tasks
  | None => None
  end.

(** [Object.values(studyPlan).flat()] *)
Definition allTasks (plan : StudyPlan) : list StudyTask.t :=
  concat (map snd plan).

Definition sameTopic (task t : StudyTask.t) : bool :=
  (StudyTask.topic t =? StudyTask.topic task)%string
  && (StudyTask.chapter t =? StudyTask.chapter task)%string.

Definition sameChapter (task t : StudyTask.t) : bool :=
  (StudyTask.chapter t =? StudyTask.chapter task)%string.

(** [s] is the render in which the task was clicked. [setStudyPlan]
    queues the plan of the response for the next render; the constant
    [studyPlan] the checks read after the two requests is still the one
    of [s], as are [progress], [completedTopics] and [completedChapters]. *)
Definition handleTaskCompletion (s : State) (week : string) (taskId : Z)
  : task :=
  match findTask s.(studyPlan) week taskId with
  | None => Done s
  | Some task =>
      PutTaskProgress s.(selectedSubject) week taskId true 100 (fun res =>
        match res with
        | Rejected detail =>
            Done (setError
                    (Some (JS.or_else detail "Failed to update task progress"))
                    s)
        | Resolved plan_data =>
            let cur := setStudyPlan plan_data s in
            PutProgress (pretty taskId) true None (fun progressRes =>
              match progressRes with
              | Rejected detail =>
                  Done (setError
                          (Some (JS.or_else detail
                                   "Failed to update task progress"))
                          cur)
              | Resolved data =>
                  let cur := setProgress (s.(progress) ++ [data]) cur in
                  let topicTasks :=
                    List.filter (sameTopic task) (allTasks s.(studyPlan)) in
                  let cur :=
                    if forallb StudyTask.completed topicTasks then
                      setStep 8
                        (setSelectedChapter (Some (StudyTask.chapter task))
                           (setSelectedTopic (Some (StudyTask.topic task))
                              (setCompletedTopics
                                 (JS.Set_of (s.(completedTopics)
                                             ++ [StudyTask.topic task]))
                                 cur)))
                    else cur in
                  let chapterTasks :=
                    List.filter (sameChapter task) (allTasks s.(studyPlan)) in
                  let cur :=
                    if forallb StudyTask.completed chapterTasks then
                      setStep 9
                        (setSelectedChapter (Some (StudyTask.chapter task))
                           (setCompletedChapters
                              (JS.Set_of (s.(completedChapters)
                                          ++ [StudyTask.chapter task]))
                              cur))
                    else cur in
                  Done cur
              end)
        end)
  end.

Definition handleReschedule (s : State) : task :=
  if negb (JS.truthy s.(missedDate)) then
    Done (setError (Some "Please select a missed date") s)
  else
    PutReschedule s.(selectedSubject) s.(missedDate) (fun res =>
      match res with
      | Resolved plan_data =>
          Done (setMissedDate ""
                  (setNudge
                     (generateNudge (Stats.completedTasks s.(stats))
                        (Stats.totalTasks s.(stats)) 0 s.(weakChapters))
                     (setStudyPlan plan_data s)))
      | Rejected detail =>
          Done (setError
                  (Some (JS.or_else detail "Failed to reschedule tasks")) s)
      end).

Definition answersOf (s : State) (ty : QuizType.t) : gmap nat string :=
  match ty with
  | QuizType.initial => s.(quizAnswers)
  | QuizType.topic => s.(topicQuizAnswers)
  | QuizType.chapter => s.(chapterQuizAnswers)
  | QuizType.three_chapter => s.(threeChapterQuizAnswers)
  end.

Definition quizOf (s : State) (ty : QuizType.t) : list QuizQuestion.t :=
  match ty with
  | QuizType.initial => s.(initialQuiz)
  | QuizType.topic => s.(topicQuiz)
  | QuizType.chapter => s.(chapterQuiz)
  | QuizType.three_chapter => s.(threeChapterQuiz)
  end.

(** [score / quiz.length] *)
Definition ratio (score : nat) (quiz : list QuizQuestion.t) : JS.number :=
  JS.div (JS.of_nat score) (JS.of_nat (length quiz)).

(** The call of [handleInitialQuizSubmit] runs up to its request within
    the same event, after the writes queued here: of two writes to one
    state variable the later one is the value of the next render. *)
Definition handleQuizSubmit (clk : Clock) (s : State) (ty : QuizType.t)
  : task :=
  let answers := answersOf s ty in
  let quiz := quizOf s ty in
  let '(score, weak) :=
    forEach (quizBody ty s.(selectedChapter) answers) quiz 0%nat
      (0%nat, s.(weakChapters)) in
  let cur := setQuizScore (Some score) s in
  let cur :=
    if JS.ltb (ratio score quiz) (JS.Num (6 # 10))
    then setWeakChapters (JS.Set_of weak) cur else cur in
  andThen
    match ty with
    | QuizType.initial => handleInitialQuizSubmit clk s cur
    | QuizType.topic => Done (setCurrentSubtopic None (setStep 6 cur))
    | QuizType.chapter =>
        if (3 <=? length s.(completedChapters))%nat
        then Done (setStep 10 cur)
        else Done (setStep 6 cur)
    | QuizType.three_chapter => Done (setStep 6 cur)
    end
    (fun cur =>
       match ty with
       | QuizType.initial => Done cur
       | _ =>
           PutProgress
             (QuizType.name ty +:+ "_quiz_" +:+ pretty clk.(now)) true
             (Some (JS.scale (ratio score quiz) 100))
             (fun res =>
                match res with
                | Resolved _ => Done cur
                | Rejected detail =>
                    Done (setError
                            (Some (JS.or_else detail
                                     "Failed to save quiz progress"))
                            cur)
                end)
       end).

(** The writes [handleQuizSubmit] has queued when it branches on the
    type: the score, and the weak chapters when the ratio is below 0.6. *)
Definition afterScoring (s : State) (ty : QuizType.t) : State :=
  let r := forEach (quizBody ty (selectedChapter s) (answersOf s ty))
             (quizOf s ty) 0%nat (0%nat, weakChapters s) in
  let cur := setQuizScore (Some (fst r)) s in
  if JS.ltb (ratio (fst r) (quizOf s ty)) (JS.Num (6 # 10))
  then setWeakChapters (JS.Set_of (snd r)) cur else cur.

(** The plan map's [onTaskClick]. *)
Definition onTaskClick (s : State) (week : string) (taskId : Z) : State :=
  match findTask s.(studyPlan) week taskId with
  | Some task =>
      setStep 7
        (setCurrentSubtopic (Some (StudyTask.subtopic task))
           (setSelectedTopic (Some (StudyTask.topic task))
              (setSelectedChapter (Some (StudyTask.chapter task)) s)))
  | None => s
  end.

(** *** User events

    The events of the wizard once the student is signed in; loading of
    data on entry to a step and the inputs inside the quiz and chat
    components are left out: they write neither [step] nor the completed
    chapters. *)

(** The buttons whose handler is a single [setStep]. *)
Inductive button : Type :=
| ToSubjects      (* step 0: setStep(1) *)
| ToSyllabus      (* step 1: setStep(2) *)
| ToMarks         (* step 2, Proceed to Assessment: setStep(3) *)
| GeneratePlan    (* step 5, Generate Study Plan: setStep(6) *)
| TakeTopicQuiz.  (* step 7, Take Topic Quiz: setStep(8) *)

Definition target (b : button) : Z :=
  match b with
  | ToSubjects => 1
  | ToSyllabus => 2
  | ToMarks => 3
  | GeneratePlan => 6
  | TakeTopicQuiz => 8
  end.

Inductive event : Type :=
| Press (b : button)
| MarksInput (value : JS.number)
| MarksSubmit
| QuizSubmit (ty : QuizType.t)
| TaskClick (week : string) (taskId : Z)
| TaskComplete (week : string) (taskId : Z)
| MissedDateInput (value : string)
| Reschedule.

Definition dispatch (clk : Clock) (s : State) (e : event) : task :=
  match e with
  | Press b => Done (setStep (target b) s)
  | MarksInput v => Done (setPreviousMarks (Some v) s)
  | MarksSubmit => Done (handleMarksSubmit s)
  | QuizSubmit ty => handleQuizSubmit clk s ty
  | TaskClick week taskId => Done (onTaskClick s week taskId)
  | TaskComplete week taskId => handleTaskCompletion s week taskId
  | MissedDateInput v => Done (setMissedDate v s)
  | Reschedule => handleReschedule s
  end.

(** States the wizard can be in after some events, each handled to its
    end before the next one. *)
Inductive reaches (s : State) : State -> Prop :=
| reaches_here : reaches s s
| reaches_next clk e s1 s2 :
    reaches s s1 -> ends (dispatch clk s1 e) s2 -> reaches s s2.

End StudyPlanPage.

(** ** Scoring as the specification words it *)

Module Scoring.
Import StudyPlanPage.

(** The questions paired with their indices *)
Definition indexed (quiz : list QuizQuestion.t) : list (nat * QuizQuestion.t) :=
  imap pair quiz.

(** [count(answers[i] == questions[i].answer)] *)
Definition spec_score (answers : gmap nat string)
  (quiz : list QuizQuestion.t) : nat :=
  length (List.filter (fun iq => correct answers (fst iq) (snd iq))
            (indexed quiz)).

(** The chapter of a question that was missed and carries a tag *)
Definition missedChapter (answers : gmap nat string)
  (iq : nat * QuizQuestion.t) : option string :=
  if correct answers (fst iq) (snd iq) then None
  else match QuizQuestion.chapter (snd iq) with
       | Some c => if JS.truthy c then Some c else None
       | None => None
       end.

(** The chapters of the missed questions, in the order of the quiz *)
Definition spec_misses (answers : gmap nat string)
  (quiz : list QuizQuestion.t) : list string :=
  omap (missedChapter answers) (indexed quiz).

End Scoring.

(** ** Concrete inputs used by the examples below *)

Module Examples.
Import StudyPlanPage.

Definition clock : Clock :=
  {| startDate := "2025-01-06"; endDate := "2025-07-06";
     now := 1736121600000 |}.

Definition question (answer chapter : string) : QuizQuestion.t :=
  QuizQuestion.mk "?" ["A"; "B"; "C"; "X"] answer (Some chapter) None None.

(** The scenario of the specification: keys A, X, C; chapters Ch1, Ch2,
    Ch3; answers A, B, C. *)
Definition quiz3 : list QuizQuestion.t :=
  [question "A" "Ch1"; question "X" "Ch2"; question "C" "Ch3"].

Definition answers3 : gmap nat string :=
  {[ 0%nat := "A"; 1%nat := "B"; 2%nat := "C" ]}.

(** The wizard at step 4 with that quiz answered. *)
Definition atQuiz3 : State :=
  setQuizAnswers answers3
    (setInitialQuiz quiz3 (setSelectedSubject "Physics" (setStep 4 initialState))).

(** Two questions of one chapter, none answered. *)
Definition quizSameChapter : list QuizQuestion.t :=
  [question "A" "Ch1"; question "B" "Ch1"].

Definition atQuizSameChapter : State :=
  setInitialQuiz quizSameChapter
    (setSelectedSubject "Physics" (setStep 4 initialState)).

(** A question of a chapter quiz tagged with its own chapter and topic. *)
Definition taggedQuestion : QuizQuestion.t :=
  QuizQuestion.mk "?" ["A"; "B"] "A" (Some "Ch2") (Some "Waves") None.

(** A plan of one week with three tasks of chapter Motion. *)
Definition motionTask (id : Z) (completed : bool) : StudyTask.t :=
  StudyTask.mk id "Kinematics" "Physics" "Speed" "2025-01-06" 1 "easy"
    "learn" "10 XP" "Read the section" completed
    (if completed then 100 else 0) "Motion".

Definition motionPlan (c1 c2 c3 : bool) : StudyPlan :=
  [("1", [motionTask 1 c1; motionTask 2 c2; motionTask 3 c3])].

Definition atPlan (plan : StudyPlan) : State :=
  setStudyPlan plan (setSelectedSubject "Physics" (setStep 6 initialState)).

(** What the collaborator stores for the score of a progress record. *)
Definition storedScore (score : option JS.number) : option Q :=
  match score with
  | Some (JS.Num q) => Some q
  | _ => None
  end.

(** A collaborator that accepts every request and answers with [plan]. *)
Definition accepting (plan : StudyPlan) : server :=
  {| on_study_plans := fun _ => Resolved plan;
     on_task_progress := fun _ _ _ _ _ => Resolved plan;
     on_progress := fun id c sc => Resolved (Progress.mk id c (storedScore sc));
     on_reschedule := fun _ _ => Resolved plan |}.

(** A collaborator that rejects every request without a detail. *)
Definition rejecting : server :=
  {| on_study_plans := fun _ => Rejected None;
     on_task_progress := fun _ _ _ _ _ => Rejected None;
     on_progress := fun _ _ _ => Rejected None;
     on_reschedule := fun _ _ => Rejected None |}.

End Examples.

(** ** The quiz component ([QuizInterface]) *)

Module QuizInterface.

(** The props [quiz] and [answers] (the parent owns the answers and
    passes [setAnswers]) and the component's own [currentQuestion]. *)
Record View : Type := {
  quiz : list QuizQuestion.t;
  answers : gmap nat string;
  currentQuestion : nat;
}.

(** A component just mounted on a quiz. *)
Definition mount (quiz : list QuizQuestion.t) (answers : gmap nat string)
  : View :=
  {| quiz := quiz; answers := answers; currentQuestion := 0 |}.

(** [setAnswers({ ...answers, [currentQuestion]: option })] *)
Definition handleAnswer (v : View) (option : string) : View :=
  {| quiz := quiz v;
     answers := <[currentQuestion v := option]> (answers v);
     currentQuestion := currentQuestion v |}.

(** [if (currentQuestion < quiz.length - 1) setCurrentQuestion(currentQuestion + 1)] *)
Definition handleNext (v : View) : View :=
  if (Z.of_nat (currentQuestion v) <? Z.of_nat (length (quiz v)) - 1)%Z
  then {| quiz := quiz v; answers := answers v;
          currentQuestion := currentQuestion v + 1 |}
  else v.

(** [if (currentQuestion > 0) setCurrentQuestion(currentQuestion - 1)] *)
Definition handlePrevious (v : View) : View :=
  if (0 <? currentQuestion v)%nat
  then {| quiz := quiz v; answers := answers v;
          currentQuestion := currentQuestion v - 1 |}
  else v.

(** The options drawn for the current question: none for an empty quiz. *)
Definition shownOptions (v : View) : list string :=
  if (0 <? length (quiz v))%nat then
    match quiz v !! currentQuestion v with
    | Some q => QuizQuestion.options q
    | None => []
    end
  else [].

(** The submit button is drawn on the last question and is enabled when
    [Object.keys(answers).length === quiz.length]. *)
Definition submitShown (v : View) : bool :=
  (0 <? length (quiz v))%nat
  && (Z.of_nat (currentQuestion v) =? Z.of_nat (length (quiz v)) - 1)%Z.

Definition submitEnabled (v : View) : bool :=
  submitShown v && (size (answers v) =? length (quiz v))%nat.

Inductive event : Type :=
| Choose (option : string)
| Next
| Previous.

Definition handle (v : View) (e : event) : View :=
  match e with
  | Choose option => handleAnswer v option
  | Next => handleNext v
  | Previous => handlePrevious v
  end.

(** What the drawn controls let the student do: an option can be chosen
    only among those shown. *)
Definition offered (v : View) (e : event) : Prop :=
  match e with
  | Choose option => option ∈ shownOptions v
  | Next | Previous => True
  end.

Inductive reaches (v : View) : View -> Prop :=
| reaches_here : reaches v v
| reaches_next e v1 :
    reaches v v1 -> offered v1 e -> reaches v (handle v1 e).

End QuizInterface.

(** ** More of the wizard: step 5, loading on entry to a step, chat *)

Module Wizard.
Import StudyPlanPage.

Definition setExtraChapters (v : list string) (s : State) : State :=
  mkState (s.(step)) (s.(board)) (s.(classNum)) (s.(selectedSubject)) v
    (s.(weakChapters)) (s.(studyPlan)) (s.(progress)) (s.(stats))
    (s.(error)) (s.(previousMarks)) (s.(knowledgeLevel)) (s.(initialQuiz))
    (s.(topicQuiz)) (s.(chapterQuiz)) (s.(threeChapterQuiz))
    (s.(quizAnswers)) (s.(topicQuizAnswers)) (s.(chapterQuizAnswers))
    (s.(threeChapterQuizAnswers)) (s.(quizScore)) (s.(selectedChapter))
    (s.(selectedTopic)) (s.(currentSubtopic)) (s.(completedChapters))
    (s.(completedTopics)) (s.(missedDate)) (s.(nudge)).


(** The checkbox of a chapter on step 5. *)
Definition toggleExtraChapter (s : State) (name : string) : State :=
  if bool_decide (name ∈ extraChapters s) then
    setExtraChapters
      (List.filter (fun c => negb (c =? name)%string) (extraChapters s)) s
  else setExtraChapters (extraChapters s ++ [name]) s.

(** *** Entry to step 6: the stored plans arrive *)



(** Body of the inner [forEach]; [acc] is [(completed, total, missed)] and
    [past d] stands for [new Date(d) < today]. *)
Definition countTask (past : string -> bool) (acc : Z * Z * Z)
  (task : StudyTask.t) : Z * Z * Z :=
  let '(completed, total, missed) := acc in
  let total := total + 1 in
  let completed :=
    if StudyTask.completed task then completed + 1 else completed in
  let missed :=
    if negb (StudyTask.completed task) && past (StudyTask.date task)
    then missed + 1 else missed in
  (completed, total, missed).

(** [for (const week in planData) planData[week].forEach(...)] *)
Definition planCounts (past : string -> bool) (planData : StudyPlan)
  : Z * Z * Z :=
  fold_left (fun acc week => fold_left (countTask past) (snd week) acc)
    planData (0, 0, 0).


(** The [catch] of the loading effect. *)
Definition onLoadFailed (s : State) (detail : option string) : State :=
  setError (Some (JS.or_else detail "Failed to load data")) s.

(** *** The request the loading effect sends on entry to a step *)

Record Topic : Type := {
  topic_name : string;
  subtopics : list string;
}.

Record Chapter : Type := {
  chapter_name : string;
  topics : list Topic;
}.

Inductive fetch : Type :=
| GetSubjects (board : string) (class_num : Z)
| GetSyllabus (board : string) (class_num : Z) (subject : string)
| PostQuizInitial (board : string) (class_num : Z) (subject : string)
    (chapters : list string) (level : string)
| GetStudyPlans
| GetSubtopics (board : string) (class_num : Z) (subject : string)
    (chapter topic : option string)
| PostQuizTopic (board : string) (class_num : Z) (subject : string)
    (chapter topic : option string) (level : string)
| PostQuizChapter (board : string) (class_num : Z) (subject : string)
    (chapter : option string) (topics : list string) (level : string)
| PostQuizThreeChapter (board : string) (class_num : Z) (subject : string)
    (chapters : list string) (level : string).

(** [completedChapters.slice(-3)] *)
Definition lastThree (l : list string) : list string :=
  drop (length l - 3) l.

(** [chapters.find(c => c.name === selectedChapter)?.topics.map(t => t.name) || []] *)
Definition topicsOf (chapters : list Chapter) (selectedChapter : option string)
  : list string :=
  match List.find
          (fun c => bool_decide (Some (chapter_name c) = selectedChapter))
          chapters with
  | Some c => map topic_name (topics c)
  | None => []
  end.

(** The chain of [if]s of [fetchData]; [None] when no branch applies. *)
Definition fetchData (s : State) (chapters : list Chapter) : option fetch :=
  if (step s =? 1) && JS.truthy (board s) && negb (classNum s =? 0) then
    Some (GetSubjects (board s) (classNum s))
  else if (step s =? 2) && JS.truthy (selectedSubject s) then
    Some (GetSyllabus (board s) (classNum s) (selectedSubject s))
  else if step s =? 4 then
    Some (PostQuizInitial (board s) (classNum s) (selectedSubject s)
            (map chapter_name chapters) (knowledgeLevel s))
  else if step s =? 6 then
    Some GetStudyPlans
  else if (step s =? 7) && JS.truthy_opt (selectedChapter s)
          && JS.truthy_opt (selectedTopic s) then
    Some (GetSubtopics (board s) (classNum s) (selectedSubject s)
            (selectedChapter s) (selectedTopic s))
  else if (step s =? 8) && JS.truthy_opt (selectedChapter s)
          && JS.truthy_opt (selectedTopic s) then
    Some (PostQuizTopic (board s) (classNum s) (selectedSubject s)
            (selectedChapter s) (selectedTopic s) (knowledgeLevel s))
  else if (step s =? 9) && JS.truthy_opt (selectedChapter s) then
    Some (PostQuizChapter (board s) (classNum s) (selectedSubject s)
            (selectedChapter s) (topicsOf chapters (selectedChapter s))
            (knowledgeLevel s))
  else if (step s =? 10) && (3 <=? length (completedChapters s))%nat then
    Some (PostQuizThreeChapter (board s) (classNum s) (selectedSubject s)
            (lastThree (completedChapters s)) (knowledgeLevel s))
  else None.

(** *** Chat *)

Inductive Role : Type := user | assistant.

Record ChatMessage : Type := {
  role : Role;
  content : string;
}.

(** Body of [POST /chat] *)
Record ChatRequest : Type := {
  cr_board : string;
  cr_class_num : Z;
  cr_subject : string;
  cr_chapter : option string;
  cr_topic : option string;
  cr_subtopic : option string;
  cr_message : string;
}.

(** The handler ends with the wizard state and the chat history, or
    awaits the answer of the tutor. *)
Inductive chatTask : Type :=
| ChatDone (s : State) (chatHistory : list ChatMessage)
| PostChat (body : ChatRequest) (k : result string -> chatTask).

Definition handleChatSubmit (s : State) (chatHistory : list ChatMessage)
  (message : string) : chatTask :=
  if negb (JS.truthy_opt (selectedChapter s))
     || negb (JS.truthy_opt (selectedTopic s))
     || negb (JS.truthy_opt (currentSubtopic s)) then
    ChatDone
      (setError
         (Some "Please select a chapter, topic, and subtopic before chatting")
         s)
      chatHistory
  else
    PostChat
      {| cr_board := board s; cr_class_num := classNum s;
         cr_subject := selectedSubject s;
         cr_chapter := selectedChapter s; cr_topic := selectedTopic s;
         cr_subtopic := currentSubtopic s; cr_message := message |}
      (fun res =>
         match res with
         | Resolved response =>
             ChatDone s
               (chatHistory
                  ++ [ {| role := user; content := message |};
                       {| role := assistant; content := response |} ])
         | Rejected detail =>
             ChatDone
               (setError
                  (Some (JS.or_else detail "Failed to get chat response")) s)
               chatHistory
         end).

End Wizard.

(** ** Signing in and out *)

Module Auth.
Import StudyPlanPage.

Record AuthForm : Type := {
  email : string;
  password : string;
  firstName : string;
  lastName : string;
  middleName : string;
  role : string;
  schoolName : string;
  childUsername : string;
}.

(** The wizard state together with the hooks of the sign-in dialog, the
    browser's [localStorage] and the default [Authorization] header of
    the client. A user object is held as its JSON text, on which
    [JSON.stringify] and [JSON.parse] are the identity. *)
Record Session : Type := {
  wizard : State;
  user : option string;
  authModalOpen : bool;
  isLogin : bool;
  authLoading : bool;
  authError : option string;
  authForm : AuthForm;
  localStorage : gmap string string;
  authorization : option string;
}.

Definition withWizard (f : State -> State) (x : Session) : Session :=
  {| wizard := f (wizard x); user := user x;
     authModalOpen := authModalOpen x; isLogin := isLogin x;
     authLoading := authLoading x; authError := authError x;
     authForm := authForm x; localStorage := localStorage x;
     authorization := authorization x |}.



(** Response of [/auth/login] and [/auth/register] *)
Record AuthData : Type := {
  token : string;
  data_user : string;
}.

Inductive authTask : Type :=
| AuthDone (x : Session)
| PostAuth (endpoint : string) (body : AuthForm)
    (k : result AuthData -> authTask)
| PostLogout (k : result unit -> authTask).


Definition handleLogout (x : Session) : authTask :=
  PostLogout (fun res =>
    match res with
    | Resolved _ =>
        AuthDone
          {| wizard := setStep (-1) (wizard x); user := None;
             authModalOpen := true; isLogin := isLogin x;
             authLoading := authLoading x; authError := authError x;
             authForm := authForm x;
             localStorage := delete "user" (delete "jwt" (localStorage x));
             authorization := authorization x |}
    | Rejected detail =>
        AuthDone
          (withWizard
             (setError (Some (JS.or_else detail "Failed to logout"))) x)
    end).

(** The session a handler ends in when the collaborator answers the
    request of each kind as given. *)
Fixpoint runAuth (onAuth : result AuthData) (onLogout : result unit)
  (t : authTask) : Session :=
  match t with
  | AuthDone x => x
  | PostAuth _ _ k => runAuth onAuth onLogout (k onAuth)
  | PostLogout k => runAuth onAuth onLogout (k onLogout)
  end.



End Auth.

(** * Properties *)

(** ** Facts about the primitives *)

Section JSFacts.

Lemma Qltb_lt (a b : Q) : JS.Qltb a b = true <-> (a < b)%Q.
Proof.
  unfold JS.Qltb. rewrite negb_true_iff.
  split; intros H.
  - apply Qnot_le_lt. intros Hle. apply Qle_bool_iff in Hle. congruence.
  - destruct (Qle_bool b a) eqn:E; [|reflexivity].
    apply Qle_bool_iff in E. exfalso. exact (Qlt_not_le _ _ H E).
Qed.

Lemma Qltb_ge (a b : Q) : JS.Qltb a b = false <-> (b <= a)%Q.
Proof.
  unfold JS.Qltb. rewrite negb_false_iff. apply Qle_bool_iff.
Qed.

Lemma ltb_lt (a b : JS.number) : JS.ltb a b = true <-> JS.lt a b.
Proof.
  destruct a, b; simpl; try apply Qltb_lt; intuition congruence.
Qed.

Lemma leb_le (a b : JS.number) : JS.leb a b = true <-> JS.le a b.
Proof.
  destruct a, b; simpl; try apply Qle_bool_iff; intuition congruence.
Qed.

Lemma lt_not_le (a b : JS.number) : JS.lt a b -> ~ JS.le b a.
Proof.
  destruct a, b; simpl; auto. apply Qlt_not_le.
Qed.

Lemma truthy_true (s : string) : JS.truthy s = true <-> s <> "".
Proof.
  unfold JS.truthy. rewrite negb_true_iff.
  destruct (String.eqb_spec s ""); intuition congruence.
Qed.

Lemma or_str_truthy (a d : string) : a <> "" -> JS.or_str a d = a.
Proof.
  intros H. unfold JS.or_str. apply truthy_true in H. now rewrite H.
Qed.

(** Insertion into a set, seen from the input list. *)
Lemma fold_set_add (l acc : list string) :
  fold_left JS.set_add l acc = acc ++ JS.first_occurrences acc l.
Proof.
  revert acc. induction l as [|x r IH]; intros acc; simpl.
  - now rewrite app_nil_r.
  - unfold JS.set_add at 2. destruct (bool_decide (x ∈ acc)).
    + apply IH.
    + rewrite IH. now rewrite <- app_assoc.
Qed.

Lemma Set_of_first_occurrences (l : list string) :
  JS.Set_of l = JS.first_occurrences [] l.
Proof. unfold JS.Set_of. now rewrite fold_set_add. Qed.

Lemma elem_of_fold_set_add (l acc : list string) (x : string) :
  x ∈ fold_left JS.set_add l acc <-> x ∈ acc \/ x ∈ l.
Proof.
  revert acc. induction l as [|y r IH]; intros acc; simpl.
  - rewrite elem_of_nil. tauto.
  - rewrite IH, elem_of_cons. unfold JS.set_add.
    case_bool_decide as Hy.
    + split; [tauto|]. intros [H|[->|H]]; auto.
    + rewrite elem_of_app, list_elem_of_singleton. tauto.
Qed.

Lemma elem_of_Set_of (l : list string) (x : string) :
  x ∈ JS.Set_of l <-> x ∈ l.
Proof.
  unfold JS.Set_of. rewrite elem_of_fold_set_add, elem_of_nil. tauto.
Qed.

Lemma NoDup_fold_set_add (l acc : list string) :
  NoDup acc -> NoDup (fold_left JS.set_add l acc).
Proof.
  revert acc. induction l as [|y r IH]; intros acc Hacc; simpl; [done|].
  apply IH. unfold JS.set_add. case_bool_decide as Hy; [done|].
  apply NoDup_app. split; [done|]. split.
  - intros z Hz Hz'. apply list_elem_of_singleton in Hz'. now subst.
  - apply NoDup_singleton.
Qed.

Lemma NoDup_Set_of (l : list string) : NoDup (JS.Set_of l).
Proof. apply NoDup_fold_set_add. constructor. Qed.

Lemma fold_set_add_NoDup (l acc : list string) :
  NoDup (acc ++ l) -> fold_left JS.set_add l acc = acc ++ l.
Proof.
  revert acc. induction l as [|y r IH]; intros acc H; simpl.
  - now rewrite app_nil_r.
  - assert (Hy : y ∉ acc).
    { apply NoDup_app in H as (_ & H & _). intros Hin.
      apply (H y Hin). left. }
    unfold JS.set_add. rewrite bool_decide_false by done.
    rewrite IH; rewrite <- app_assoc; done.
Qed.

(** A list without repetitions is its own set. *)
Lemma Set_of_NoDup (l : list string) : NoDup l -> JS.Set_of l = l.
Proof. intros H. unfold JS.Set_of. now rewrite fold_set_add_NoDup. Qed.

(** Adding one element to the set of a list without repetitions. *)
Lemma Set_of_snoc (l : list string) (x : string) :
  NoDup l -> JS.Set_of (l ++ [x]) = JS.set_add l x.
Proof.
  intros H. unfold JS.Set_of. rewrite fold_left_app. simpl.
  fold (JS.Set_of l). now rewrite Set_of_NoDup.
Qed.

End JSFacts.


(** ** Prior marks and knowledge level *)

Section MarksToLevel.

Import StudyPlanPage.

Lemma handleMarksSubmit_level (s : State) (m : JS.number) :
  previousMarks s = Some m ->
  handleMarksSubmit s =
    setStep 4
      (setKnowledgeLevel
         (if JS.ltb m (JS.Num 60) then "beginner"
          else if JS.leb m (JS.Num 75) then "intermediate" else "advanced")
         s).
Proof. intros H. unfold handleMarksSubmit. now rewrite H. Qed.

(** C1. Whenever marks have been entered, submitting them moves the
    wizard to step 4 and sets the knowledge level by the step function:
    below 60 beginner, from 60 to 75 (both included) intermediate, above
    75 advanced; in particular the marks 60 and 75 give intermediate. *)
Theorem marks_submit_sets_level (s : State) (m : JS.number) :
  previousMarks s = Some m ->
  step (handleMarksSubmit s) = 4
  /\ (JS.lt m (JS.Num 60) ->
      knowledgeLevel (handleMarksSubmit s) = "beginner")
  /\ (JS.le (JS.Num 60) m -> JS.le m (JS.Num 75) ->
      knowledgeLevel (handleMarksSubmit s) = "intermediate")
  /\ (JS.lt (JS.Num 75) m ->
      knowledgeLevel (handleMarksSubmit s) = "advanced")
  /\ (m = JS.Num 60 \/ m = JS.Num 75 ->
      knowledgeLevel (handleMarksSubmit s) = "intermediate").
Proof.
  intros H. rewrite (handleMarksSubmit_level s m H). simpl.
  split; [reflexivity|].
  assert (Hmid : JS.le (JS.Num 60) m -> JS.le m (JS.Num 75) ->
                 (if JS.ltb m (JS.Num 60) then "beginner"
                  else if JS.leb m (JS.Num 75) then "intermediate"
                  else "advanced") = "intermediate").
  { intros Hlo Hhi.
    destruct (JS.ltb m (JS.Num 60)) eqn:E.
    - apply ltb_lt in E. now apply (lt_not_le m (JS.Num 60)) in E.
    - apply leb_le in Hhi. now rewrite Hhi. }
  repeat split.
  - intros Hlt. apply ltb_lt in Hlt. now rewrite Hlt.
  - exact Hmid.
  - intros Hgt.
    destruct (JS.ltb m (JS.Num 60)) eqn:E1.
    + apply ltb_lt in E1. destruct m; simpl in *; try tauto.
      exfalso. apply (Qlt_irrefl 75).
      eapply Qlt_trans; [exact Hgt|]. eapply Qlt_trans; [exact E1|]. reflexivity.
    + destruct (JS.leb m (JS.Num 75)) eqn:E2; [|reflexivity].
      apply leb_le in E2. now apply (lt_not_le (JS.Num 75) m) in Hgt.
  - intros [-> | ->]; reflexivity.
Qed.

Lemma marks_submit_sets_level_witness :
  let s := setPreviousMarks (Some (JS.Num 60)) initialState in
  previousMarks s = Some (JS.Num 60)
  /\ step (handleMarksSubmit s) = 4
  /\ knowledgeLevel (handleMarksSubmit s) = "intermediate".
Proof.
  intros s.
  pose proof (marks_submit_sets_level s (JS.Num 60) eq_refl)
    as (Hstep & _ & Hmid & _ & _).
  split; [reflexivity|]. split; [exact Hstep|].
  apply Hmid; simpl; unfold Qle; simpl; lia.
Defined.

(** Without marks the handler only reports the missing input. *)
Lemma marks_submit_without_marks (s : State) :
  previousMarks s = None ->
  handleMarksSubmit s = setError (Some "Please enter your marks") s.
Proof. intros H. unfold handleMarksSubmit. now rewrite H. Qed.

End MarksToLevel.

(** ** The nudge generator *)

Section Nudge.

Import StudyPlanPage.

Lemma rate_positive_total (completed total : Z) :
  0 < total -> rate completed total = (inject_Z completed / inject_Z total)%Q.
Proof.
  intros H. unfold rate. apply Z.ltb_lt in H. now rewrite H.
Qed.

Lemma rate_no_total (completed total : Z) :
  total <= 0 -> rate completed total = 0%Q.
Proof.
  intros H. unfold rate. destruct (0 <? total) eqn:E; [|reflexivity].
  apply Z.ltb_lt in E. lia.
Qed.

Lemma length_eqb_nil {A} (l : list A) : (length l =? 0)%nat = true <-> l = [].
Proof. destruct l; simpl; intuition congruence. Qed.

(** C3. The nudge is chosen by a cascade with strict priority: missed
    tasks first (the message carries the count and the first two weak
    chapters, or "your studies" when that text is empty), then weak
    chapters (up to two of them), then a completion ratio above 0.8,
    then a ratio above 0.5, else the generic encouragement; and 2 missed
    tasks with weak chapter Algebra give the missed-tasks message for
    every completed and total. *)
Theorem nudge_cascade (completed total missed : Z) (weak : list string) :
  (0 < missed ->
   generateNudge completed total missed weak =
     "Oops, you missed " +:+ pretty missed +:+ " tasks! Let's focus on "
       +:+ JS.or_str (JS.join ", " (take 2 weak)) "your studies"
       +:+ " and conquer them together!")
  /\ (missed <= 0 -> weak <> [] ->
      generateNudge completed total missed weak =
        "You're making progress, but let's strengthen your skills in "
          +:+ JS.join ", " (take 2 weak) +:+ ". Keep pushing, brave scholar!")
  /\ (missed <= 0 -> weak = [] -> 0 < total ->
      (8 # 10 < inject_Z completed / inject_Z total)%Q ->
      generateNudge completed total missed weak =
        "You're dominating the knowledge kingdom like a true champion! Keep ruling!")
  /\ (missed <= 0 -> weak = [] -> 0 < total ->
      (inject_Z completed / inject_Z total <= 8 # 10)%Q ->
      (5 # 10 < inject_Z completed / inject_Z total)%Q ->
      generateNudge completed total missed weak =
        "Great progress, adventurer! You're halfway to mastering this realm. Let's keep exploring!")
  /\ (missed <= 0 -> weak = [] -> 0 < total ->
      (inject_Z completed / inject_Z total <= 5 # 10)%Q ->
      generateNudge completed total missed weak =
        "Every step counts, young scholar! Let's dive into the next quest and build your skills!")
  /\ generateNudge completed total 2 ["Algebra"] =
       "Oops, you missed 2 tasks! Let's focus on Algebra and conquer them together!".
Proof.
  assert (Hmiss : forall m, m <= 0 -> (0 <? m) = false).
  { intros m Hm. apply Z.ltb_ge. exact Hm. }
  unfold generateNudge.
  split; [|split; [|split; [|split; [|split]]]].
  - intros H. apply Z.ltb_lt in H. now rewrite H.
  - intros Hm Hw. rewrite (Hmiss _ Hm).
    destruct (length weak =? 0)%nat eqn:E; [|reflexivity].
    apply length_eqb_nil in E. contradiction.
  - intros Hm -> Ht Hr. rewrite (Hmiss _ Hm). simpl.
    rewrite (rate_positive_total _ _ Ht).
    apply Qltb_lt in Hr. now rewrite Hr.
  - intros Hm -> Ht Hr8 Hr5. rewrite (Hmiss _ Hm). simpl.
    rewrite (rate_positive_total _ _ Ht).
    apply Qltb_ge in Hr8. apply Qltb_lt in Hr5. now rewrite Hr8, Hr5.
  - intros Hm -> Ht Hr5. rewrite (Hmiss _ Hm). simpl.
    rewrite (rate_positive_total _ _ Ht).
    assert (Hr8 : (inject_Z completed / inject_Z total <= 8 # 10)%Q).
    { eapply Qle_trans; [exact Hr5|]. unfold Qle; simpl; lia. }
    apply Qltb_ge in Hr8. apply Qltb_ge in Hr5. now rewrite Hr8, Hr5.
  - reflexivity.
Qed.

Lemma nudge_cascade_witness :
  generateNudge 9 10 3 ["Algebra"; "Optics"; "Heat"] =
    "Oops, you missed 3 tasks! Let's focus on Algebra, Optics and conquer them together!"
  /\ generateNudge 9 10 0 ["Algebra"; "Optics"; "Heat"] =
       "You're making progress, but let's strengthen your skills in Algebra, Optics. Keep pushing, brave scholar!"
  /\ generateNudge 9 10 0 [] =
       "You're dominating the knowledge kingdom like a true champion! Keep ruling!"
  /\ generateNudge 4 5 0 [] =
       "Great progress, adventurer! You're halfway to mastering this realm. Let's keep exploring!"
  /\ generateNudge 1 2 0 [] =
       "Every step counts, young scholar! Let's dive into the next quest and build your skills!".
Proof.
  split; [|split; [|split; [|split]]].
  - apply (proj1 (nudge_cascade 9 10 3 ["Algebra"; "Optics"; "Heat"])). lia.
  - apply (proj1 (proj2 (nudge_cascade 9 10 0 ["Algebra"; "Optics"; "Heat"])));
      [lia | discriminate].
  - apply (proj1 (proj2 (proj2 (nudge_cascade 9 10 0 []))));
      [lia | reflexivity | lia | reflexivity].
  - apply (proj1 (proj2 (proj2 (proj2 (nudge_cascade 4 5 0 [])))));
      [lia | reflexivity | lia | unfold Qle; simpl; lia | reflexivity].
  - apply (proj1 (proj2 (proj2 (proj2 (proj2 (nudge_cascade 1 2 0 []))))));
      [lia | reflexivity | lia | unfold Qle; simpl; lia].
Defined.

(** C10. With no task at all the division is not performed: the ratio
    is taken as 0, and an empty plan with nothing missed and no weak
    chapter gets the generic encouragement. *)
Theorem nudge_empty_plan (completed : Z) :
  rate completed 0 = 0%Q
  /\ generateNudge completed 0 0 [] =
       "Every step counts, young scholar! Let's dive into the next quest and build your skills!".
Proof. split; reflexivity. Qed.

End Nudge.

(** ** Rescheduling *)

Section Rescheduling.

Import StudyPlanPage.

Lemma truthy_empty (d : string) : JS.truthy d = false <-> d = "".
Proof.
  unfold JS.truthy. rewrite negb_false_iff.
  destruct (String.eqb_spec d ""); intuition congruence.
Qed.

(** C9. With an empty missed date the handler sets a local error and
    sends nothing. With a date it sends exactly one request, carrying the
    current subject and the date; the plan of the response replaces the
    study plan as it is; a rejected request sets an error and changes
    nothing else, so the study plan stays the one before. *)
Theorem reschedule_contract (s : State) (srv : server) :
  (missedDate s = "" ->
   handleReschedule s = Done (setError (Some "Please select a missed date") s)
   /\ fst (run srv (handleReschedule s)) = []
   /\ studyPlan (snd (run srv (handleReschedule s))) = studyPlan s)
  /\ (missedDate s <> "" ->
      fst (run srv (handleReschedule s)) =
        [ReqPutReschedule (selectedSubject s) (missedDate s)]
      /\ exists k,
          handleReschedule s =
            PutReschedule (selectedSubject s) (missedDate s) k
          /\ (forall plan_data, exists s',
                 k (Resolved plan_data) = Done s'
                 /\ studyPlan s' = plan_data)
          /\ (forall detail, exists s',
                 k (Rejected detail) = Done s'
                 /\ s' = setError
                           (Some (JS.or_else detail "Failed to reschedule tasks"))
                           s
                 /\ studyPlan s' = studyPlan s
                 /\ error s' <> None)).
Proof.
  unfold handleReschedule. split.
  - intros H. apply truthy_empty in H. rewrite H. simpl. auto.
  - intros H. apply truthy_true in H. rewrite H. simpl. split.
    + destruct (on_reschedule srv (selectedSubject s) (missedDate s));
        reflexivity.
    + eexists. split; [reflexivity|]. split.
      * intros plan_data. eexists. split; reflexivity.
      * intros detail. eexists. repeat split. discriminate.
Qed.

Lemma reschedule_contract_witness :
  let s := Examples.atPlan (Examples.motionPlan true false false) in
  let s' := setMissedDate "2025-01-07" s in
  missedDate s = ""
  /\ fst (run (Examples.accepting []) (handleReschedule s)) = []
  /\ missedDate s' <> ""
  /\ fst (run Examples.rejecting (handleReschedule s'))
     = [ReqPutReschedule "Physics" "2025-01-07"].
Proof.
  intros s s'.
  assert (H : missedDate s = "") by reflexivity.
  assert (H' : missedDate s' <> "") by discriminate.
  split; [exact H|]. split.
  - exact (proj1 (proj2 (proj1 (reschedule_contract s (Examples.accepting [])) H))).
  - split; [exact H'|].
    exact (proj1 (proj2 (reschedule_contract s' Examples.rejecting) H')).
Defined.

End Rescheduling.

(** ** Dashboard statistics *)

Section DashboardStats.

Import Dashboard.

Lemma fold_left_scores (l : list Progress.t) (acc : Q) :
  (fold_left (fun sum p => sum + score_or_0 p) l acc
   == acc + Qsum (map score_or_0 l))%Q.
Proof.
  revert acc. induction l as [|p r IH]; intros acc; simpl.
  - now rewrite Qplus_0_r.
  - rewrite IH. now rewrite Qplus_assoc.
Qed.

Lemma or_1_max (n : nat) : or_1 n = Nat.max n 1.
Proof. destruct n as [|[|n]]; simpl; lia. Qed.





Lemma Qsum_completed_only (l : list Progress.t) :
  Forall (fun p => Progress.completed p = false -> Progress.score p = None) l ->
  (Qsum (map score_or_0 l)
   == Qsum (map score_or_0 (filter (fun p => Progress.completed p = true) l)))%Q.
Proof.
  induction 1 as [|p r Hp _ IH]; [reflexivity|].
  destruct (Progress.completed p) eqn:E.
  - rewrite filter_cons_True by exact E. simpl. now rewrite IH.
  - rewrite filter_cons_False by congruence. simpl.
    unfold score_or_0 at 1. rewrite (Hp eq_refl), IH. apply Qplus_0_l.
Qed.



(** A record with a null score adds nothing to the experience points. *)
Lemma total_xp_null_score (id : string) (c : bool) :
  calculateTotalXP [Progress.mk id c None] = 0%Q.
Proof. reflexivity. Qed.

End DashboardStats.

(** ** Attribution of a missed question *)

Section MissAttribution.

Import StudyPlanPage.

Lemma forEach_topic_keeps_weak (sel : option string)
  (answers : gmap nat string) (quiz : list QuizQuestion.t) (i : nat)
  (acc : nat * list string) :
  snd (forEach (quizBody QuizType.topic sel answers) quiz i acc) = snd acc.
Proof.
  revert i acc. induction quiz as [|q r IH]; intros i acc; simpl; [done|].
  rewrite IH. unfold quizBody. destruct (correct answers i q); reflexivity.
Qed.

(** C6 as stated fails on the two quiz types it puts together. In a
    chapter quiz a missed question tagged Ch2 is recorded under Ch2 and
    not under the selected chapter Ch1; in a topic quiz the same miss is
    recorded nowhere. *)
Lemma miss_not_on_selected_chapter :
  let miss ty :=
    snd (forEach (quizBody ty (Some "Ch1") ∅) [Examples.taggedQuestion]
           0%nat (0%nat, [])) in
  miss QuizType.chapter = ["Ch2"]
  /\ miss QuizType.chapter <> ["Ch1"]
  /\ miss QuizType.topic = []
  /\ miss QuizType.topic <> ["Ch1"].
Proof.
  split; [reflexivity|]. split; [discriminate|].
  split; [reflexivity|discriminate].
Qed.

(** C6, amended. For a question answered wrongly or not at all: in the
    initial and three-chapter quizzes its own chapter tag, when it has a
    non-empty one, is appended to the weak list; in a chapter quiz a
    question that has a non-empty topic tag appends its own chapter tag
    when that is non-empty, and otherwise the selected chapter (the
    empty string when none is selected); in a topic quiz nothing is
    appended, for any list of questions; a correct answer never appends
    anything. *)
Theorem miss_attribution (ty : QuizType.t) (sel : option string)
  (answers : gmap nat string) (acc : nat * list string)
  (q : QuizQuestion.t) (i : nat) :
  (answers !! i <> Some (QuizQuestion.answer q) ->
   (ty = QuizType.initial \/ ty = QuizType.three_chapter ->
    forall c, QuizQuestion.chapter q = Some c -> c <> "" ->
    snd (quizBody ty sel answers acc q i) = snd acc ++ [c])
   /\ (ty = QuizType.initial \/ ty = QuizType.three_chapter ->
       QuizQuestion.chapter q = None \/ QuizQuestion.chapter q = Some "" ->
       snd (quizBody ty sel answers acc q i) = snd acc)
   /\ (ty = QuizType.chapter ->
       JS.truthy_opt (QuizQuestion.topic q) = true ->
       forall c, QuizQuestion.chapter q = Some c -> c <> "" ->
       snd (quizBody ty sel answers acc q i) = snd acc ++ [c])
   /\ (ty = QuizType.chapter ->
       JS.truthy_opt (QuizQuestion.topic q) = true ->
       QuizQuestion.chapter q = None \/ QuizQuestion.chapter q = Some "" ->
       snd (quizBody ty sel answers acc q i)
       = snd acc ++ [JS.or_else sel ""])
   /\ (ty = QuizType.chapter ->
       JS.truthy_opt (QuizQuestion.topic q) = false ->
       snd (quizBody ty sel answers acc q i) = snd acc))
  /\ (answers !! i = Some (QuizQuestion.answer q) ->
      snd (quizBody ty sel answers acc q i) = snd acc)
  /\ (forall quiz,
        snd (forEach (quizBody QuizType.topic sel answers) quiz i acc)
        = snd acc).
Proof.
  split; [|split].
  - intros Hwrong.
    assert (Hc : correct answers i q = false).
    { unfold correct. now apply bool_decide_eq_false. }
    unfold quizBody. rewrite Hc.
    split; [|split; [|split; [|split]]].
    + intros Hty c Hq Hne. apply truthy_true in Hne.
      destruct Hty as [-> | ->]; simpl; rewrite Hq; simpl; now rewrite Hne.
    + intros Hty Hq.
      destruct Hty as [-> | ->], Hq as [-> | ->]; reflexivity.
    + intros -> Ht c Hq Hne. simpl. rewrite Ht. simpl.
      rewrite Hq. simpl. now rewrite (or_str_truthy c _ Hne).
    + intros -> Ht Hq. simpl. rewrite Ht. simpl.
      destruct Hq as [-> | ->]; reflexivity.
    + intros -> Ht. simpl. now rewrite Ht.
  - intros Hright.
    assert (Hc : correct answers i q = true).
    { unfold correct. now apply bool_decide_eq_true. }
    unfold quizBody. now rewrite Hc.
  - intros quiz. apply forEach_topic_keeps_weak.
Qed.

Lemma miss_attribution_witness :
  let q := Examples.taggedQuestion in
  (∅ : gmap nat string) !! 0%nat <> Some (QuizQuestion.answer q)
  /\ snd (quizBody QuizType.chapter (Some "Ch1") ∅ (0%nat, ["Ch0"]) q 0)
     = ["Ch0"; "Ch2"]
  /\ snd (quizBody QuizType.three_chapter (Some "Ch1") ∅ (0%nat, ["Ch0"]) q 0)
     = ["Ch0"; "Ch2"].
Proof.
  intros q.
  assert (H : (∅ : gmap nat string) !! 0%nat <> Some (QuizQuestion.answer q)).
  { discriminate. }
  split; [exact H|]. split.
  - apply (proj1 (proj2 (proj2 (proj1
             (miss_attribution QuizType.chapter (Some "Ch1") ∅
                (0%nat, ["Ch0"]) q 0%nat) H))) eq_refl eq_refl "Ch2" eq_refl).
    discriminate.
  - apply (proj1 (proj1
             (miss_attribution QuizType.three_chapter (Some "Ch1") ∅
                (0%nat, ["Ch0"]) q 0%nat) H) (or_intror eq_refl) "Ch2" eq_refl).
    discriminate.
Defined.

End MissAttribution.

(** ** Outcomes of the handlers *)

(** Case analysis on an outcome: one case per answer of the collaborator. *)
Ltac ends_step H :=
  let Hk := fresh "Hk" in
  let r := fresh "r" in
  inversion H as [| ? ? r ? Hk | ? ? ? ? ? ? r ? Hk | ? ? ? ? r ? Hk
                 | ? ? ? r ? Hk];
  subst; clear H; try (destruct r; cbn beta iota zeta in Hk).

Ltac ends_cases :=
  repeat match goal with
    | H : StudyPlanPage.ends (StudyPlanPage.Done _) _ |- _ => ends_step H
    | H : StudyPlanPage.ends (StudyPlanPage.PostStudyPlans _ _) _ |- _ => ends_step H
    | H : StudyPlanPage.ends (StudyPlanPage.PutTaskProgress _ _ _ _ _ _) _ |- _ => ends_step H
    | H : StudyPlanPage.ends (StudyPlanPage.PutProgress _ _ _ _) _ |- _ => ends_step H
    | H : StudyPlanPage.ends (StudyPlanPage.PutReschedule _ _ _) _ |- _ => ends_step H
    end.

Section Outcomes.

Import StudyPlanPage.

(** A run against a collaborator is one of the outcomes. *)
Lemma run_ends (srv : server) (t : task) : ends t (snd (run srv t)).
Proof.
  induction t as [s | b k IH | sb w i c p k IH | i c sc k IH | sb d k IH];
    simpl.
  - constructor.
  - specialize (IH (on_study_plans srv b)).
    destruct (run srv (k (on_study_plans srv b))). econstructor; exact IH.
  - specialize (IH (on_task_progress srv sb w i c p)).
    destruct (run srv (k (on_task_progress srv sb w i c p))).
    econstructor; exact IH.
  - specialize (IH (on_progress srv i c sc)).
    destruct (run srv (k (on_progress srv i c sc))). econstructor; exact IH.
  - specialize (IH (on_reschedule srv sb d)).
    destruct (run srv (k (on_reschedule srv sb d))). econstructor; exact IH.
Qed.

(** Every task has an outcome: handlers always come to an end. *)
Lemma ends_exists (t : task) : exists s, ends t s.
Proof.
  exists (snd (run Examples.rejecting t)). apply run_ends.
Qed.

Lemma ends_andThen (t : task) (rest : State -> task) (s : State) :
  ends (andThen t rest) s <-> exists m, ends t m /\ ends (rest m) s.
Proof.
  split.
  - revert s.
    induction t as [m | b k IH | sb w i c p k IH | i c sc k IH | sb d k IH];
      simpl; intros s H.
    + exists m. split; [constructor | exact H].
    + inversion H as [| ? ? r ? Hk | | |]; subst.
      destruct (IH r s Hk) as (m & Hm & Hs). exists m.
      split; [econstructor; exact Hm | exact Hs].
    + inversion H as [| | ? ? ? ? ? ? r ? Hk | |]; subst.
      destruct (IH r s Hk) as (m & Hm & Hs). exists m.
      split; [econstructor; exact Hm | exact Hs].
    + inversion H as [| | | ? ? ? ? r ? Hk |]; subst.
      destruct (IH r s Hk) as (m & Hm & Hs). exists m.
      split; [econstructor; exact Hm | exact Hs].
    + inversion H as [| | | | ? ? ? r ? Hk]; subst.
      destruct (IH r s Hk) as (m & Hm & Hs). exists m.
      split; [econstructor; exact Hm | exact Hs].
  - intros (m & Hm & Hs). induction Hm; simpl; try (econstructor; eauto).
    exact Hs.
Qed.

(** The part of [handleInitialQuizSubmit] before its request. *)
Lemma initial_submit_outcome (clk : Clock) (s cur t : State) :
  ends (handleInitialQuizSubmit clk s cur) t ->
  let r := forEach (initialBody (quizAnswers s)) (initialQuiz s) 0%nat
             (0%nat, []) in
  weakChapters t = snd r
  /\ quizScore t = Some (fst r)
  /\ completedChapters t = completedChapters cur
  /\ (step t = 6 \/ step t = step cur).
Proof.
  unfold handleInitialQuizSubmit.
  destruct (forEach (initialBody (quizAnswers s)) (initialQuiz s) 0%nat
              (0%nat, [])) as [score weak].
  intros H. ends_cases; simpl; auto.
Qed.

Lemma afterScoring_frame (s : State) (ty : QuizType.t) :
  step (afterScoring s ty) = step s
  /\ completedChapters (afterScoring s ty) = completedChapters s.
Proof.
  unfold afterScoring.
  destruct (JS.ltb _ _); split; reflexivity.
Qed.

(** Outcome of a quiz submission other than the initial one. *)
Lemma quiz_submit_outcome (clk : Clock) (s t : State) (ty : QuizType.t) :
  ty <> QuizType.initial ->
  ends (handleQuizSubmit clk s ty) t ->
  weakChapters t = weakChapters (afterScoring s ty)
  /\ completedChapters t = completedChapters s
  /\ step t = match ty with
              | QuizType.chapter =>
                  if (3 <=? length (completedChapters s))%nat then 10 else 6
              | _ => 6
              end.
Proof.
  intros Hty. unfold handleQuizSubmit.
  pose proof (afterScoring_frame s ty) as [_ Hcc]. revert Hcc.
  unfold afterScoring.
  destruct (forEach (quizBody ty (selectedChapter s) (answersOf s ty))
              (quizOf s ty) 0%nat (0%nat, weakChapters s)) as [score weak].
  cbn [fst snd].
  set (cur := if JS.ltb (ratio score (quizOf s ty)) (JS.Num (6 # 10))
              then setWeakChapters (JS.Set_of weak) (setQuizScore (Some score) s)
              else setQuizScore (Some score) s).
  intros Hcc H.
  destruct ty; [congruence | | |].
  - simpl in H. ends_cases; simpl; repeat split; exact Hcc.
  - destruct (3 <=? length (completedChapters s))%nat; simpl in H;
      ends_cases; simpl; repeat split; exact Hcc.
  - simpl in H. ends_cases; simpl; repeat split; exact Hcc.
Qed.

(** Outcome of the submission of the initial quiz. *)
Lemma initial_quiz_submit_outcome (clk : Clock) (s t : State) :
  ends (handleQuizSubmit clk s QuizType.initial) t ->
  weakChapters t
  = snd (forEach (initialBody (quizAnswers s)) (initialQuiz s) 0%nat
           (0%nat, []))
  /\ completedChapters t = completedChapters s
  /\ (step t = 6 \/ step t = step s).
Proof.
  unfold handleQuizSubmit.
  pose proof (afterScoring_frame s QuizType.initial) as [Hst Hcc].
  revert Hst Hcc. unfold afterScoring.
  destruct (forEach (quizBody QuizType.initial (selectedChapter s)
                       (answersOf s QuizType.initial))
              (quizOf s QuizType.initial) 0%nat (0%nat, weakChapters s))
    as [score weak].
  cbn [fst snd]. intros Hst Hcc H.
  apply ends_andThen in H as (m & Hm & Ht).
  inversion Ht; subst; clear Ht.
  apply initial_submit_outcome in Hm as (Hw & _ & Hc & Hs).
  rewrite Hw, Hc, Hcc. rewrite Hst in Hs. auto.
Qed.

End Outcomes.

(** ** Completing a task *)

Section TaskCompletion.

Import StudyPlanPage.

Lemma findTask_allTasks (plan : StudyPlan) (week : string) (taskId : Z)
  (task : StudyTask.t) :
  findTask plan week taskId = Some task -> In task (allTasks plan).
Proof.
  unfold findTask, weekTasks, allTasks.
  destruct (List.find (fun kv => (fst kv =? week)%string) plan)
    as [[w tasks]|] eqn:Hw; simpl; [|discriminate].
  intros Ht. apply find_some in Hw as [Hw _]. apply find_some in Ht as [Ht _].
  apply in_concat. exists tasks. split; [|exact Ht].
  apply in_map_iff. exists (w, tasks). auto.
Qed.

Lemma sameTopic_refl (task : StudyTask.t) : sameTopic task task = true.
Proof. unfold sameTopic. now rewrite !String.eqb_refl. Qed.

Lemma sameChapter_refl (task : StudyTask.t) : sameChapter task task = true.
Proof. unfold sameChapter. apply String.eqb_refl. Qed.

Lemma open_task_fails_every (same : StudyTask.t -> bool)
  (task : StudyTask.t) (tasks : list StudyTask.t) :
  In task tasks -> same task = true -> StudyTask.completed task = false ->
  forallb StudyTask.completed (List.filter same tasks) = false.
Proof.
  intros Hin Hsame Hopen.
  destruct (forallb StudyTask.completed (List.filter same tasks)) eqn:E;
    [|reflexivity].
  rewrite forallb_forall in E.
  rewrite (E task) in Hopen; [discriminate|].
  apply filter_In. auto.
Qed.

(** What a completion can do to the step and to the completed chapters. *)
Lemma task_completion_outcome (s t : State) (week : string) (taskId : Z) :
  ends (handleTaskCompletion s week taskId) t ->
  (step t = step s \/ step t = 8 \/ step t = 9)
  /\ (completedChapters t = completedChapters s
      \/ exists c, completedChapters t
                   = JS.Set_of (completedChapters s ++ [c])).
Proof.
  unfold handleTaskCompletion.
  destruct (findTask (studyPlan s) week taskId) as [task|]; intros H;
    ends_cases; try (simpl; auto; fail).
  destruct (forallb StudyTask.completed
              (List.filter (sameTopic task) (allTasks (studyPlan s))));
    destruct (forallb StudyTask.completed
                (List.filter (sameChapter task) (allTasks (studyPlan s))));
    ends_cases; simpl; eauto 6.
Qed.

(** The checks after the two requests read the plan of the render in
    which the task was clicked: when the task is still open there, no
    answer of the collaborator leads to a quiz. *)
Lemma open_task_completion_never_transitions (s t : State) (week : string)
  (taskId : Z) (task : StudyTask.t) :
  findTask (studyPlan s) week taskId = Some task ->
  StudyTask.completed task = false ->
  ends (handleTaskCompletion s week taskId) t ->
  step t = step s
  /\ completedChapters t = completedChapters s
  /\ completedTopics t = completedTopics s.
Proof.
  intros Hfind Hopen. unfold handleTaskCompletion. rewrite Hfind.
  pose proof (findTask_allTasks _ _ _ _ Hfind) as Hin.
  rewrite (open_task_fails_every (sameTopic task) task _ Hin
             (sameTopic_refl task) Hopen).
  rewrite (open_task_fails_every (sameChapter task) task _ Hin
             (sameChapter_refl task) Hopen).
  intros H. ends_cases; simpl; auto.
Qed.

(** When both requests succeed, the step after a completion is decided
    by the plan of the render [s] alone, not by the plan of the response. *)
Lemma task_completion_step (s : State) (week : string) (taskId : Z)
  (task : StudyTask.t) (srv : server) (plan_data : StudyPlan)
  (data : Progress.t) :
  findTask (studyPlan s) week taskId = Some task ->
  on_task_progress srv (selectedSubject s) week taskId true 100
  = Resolved plan_data ->
  on_progress srv (pretty taskId) true None = Resolved data ->
  let t := snd (run srv (handleTaskCompletion s week taskId)) in
  studyPlan t = plan_data
  /\ step t =
       if forallb StudyTask.completed
            (List.filter (sameChapter task) (allTasks (studyPlan s)))
       then 9
       else if forallb StudyTask.completed
                 (List.filter (sameTopic task) (allTasks (studyPlan s)))
            then 8 else step s.
Proof.
  intros Hfind Hplan Hprog. unfold handleTaskCompletion. rewrite Hfind.
  cbn [run]. rewrite Hplan. cbn [run]. rewrite Hprog.
  destruct (forallb StudyTask.completed
              (List.filter (sameTopic task) (allTasks (studyPlan s))));
    destruct (forallb StudyTask.completed
                (List.filter (sameChapter task) (allTasks (studyPlan s))));
    split; reflexivity.
Qed.

(** C4 at the failing input. Chapter Motion has three tasks, two of them
    done. The third is marked complete and the collaborator answers with
    the plan in which all three are done: the new plan is stored, and
    the wizard stays on step 6 with no completed chapter, where the
    claim asks for step 9. *)
Theorem third_motion_task_opens_no_quiz :
  let s := Examples.atPlan (Examples.motionPlan true true false) in
  let t := snd (run (Examples.accepting (Examples.motionPlan true true true))
                  (handleTaskCompletion s "1" 3)) in
  step s = 6
  /\ studyPlan t = Examples.motionPlan true true true
  /\ forallb StudyTask.completed
       (List.filter (fun x => (StudyTask.chapter x =? "Motion")%string)
          (allTasks (studyPlan t))) = true
  /\ step t = 6
  /\ completedChapters t = [].
Proof. repeat split. Qed.

End TaskCompletion.

(** ** The three-chapter quiz and the completed chapters *)

Section ThreeChapters.

Import StudyPlanPage.

(** One event either leaves the completed chapters alone or adds one
    chapter to their set. *)
Lemma dispatch_completed_chapters (clk : Clock) (s t : State) (e : event) :
  ends (dispatch clk s e) t ->
  completedChapters t = completedChapters s
  \/ exists c, completedChapters t = JS.Set_of (completedChapters s ++ [c]).
Proof.
  destruct e as [b | v | | ty | week taskId | week taskId | v |]; simpl;
    intros H.
  - ends_cases. now left.
  - ends_cases. now left.
  - ends_cases. left. unfold handleMarksSubmit.
    destruct (previousMarks s); reflexivity.
  - left. destruct ty.
    + now apply initial_quiz_submit_outcome in H as (_ & Hc & _).
    + now apply quiz_submit_outcome in H as (_ & Hc & _).
    + now apply quiz_submit_outcome in H as (_ & Hc & _).
    + now apply quiz_submit_outcome in H as (_ & Hc & _).
  - ends_cases. left. unfold onTaskClick.
    destruct (findTask (studyPlan s) week taskId); reflexivity.
  - now apply task_completion_outcome in H as [_ Hc].
  - ends_cases. now left.
  - left. unfold handleReschedule in H.
    destruct (negb (JS.truthy (missedDate s))); ends_cases; reflexivity.
Qed.

(** One event enters step 10 only as a chapter quiz submitted with three
    completed chapters or more. *)
Lemma dispatch_enters_step_10 (clk : Clock) (s t : State) (e : event) :
  ends (dispatch clk s e) t -> step s <> 10 -> step t = 10 ->
  e = QuizSubmit QuizType.chapter /\ (3 <= length (completedChapters s))%nat.
Proof.
  intros H Hs Ht.
  destruct e as [b | v | | ty | week taskId | week taskId | v |]; simpl in H.
  - ends_cases. simpl in Ht. destruct b; discriminate.
  - ends_cases. simpl in Ht. contradiction.
  - ends_cases. unfold handleMarksSubmit in Ht.
    destruct (previousMarks s); simpl in Ht; [discriminate | contradiction].
  - destruct ty.
    + apply initial_quiz_submit_outcome in H as (_ & _ & [H | H]);
        rewrite H in Ht; [discriminate | contradiction].
    + apply quiz_submit_outcome in H as (_ & _ & H); [|discriminate].
      rewrite H in Ht. discriminate.
    + apply quiz_submit_outcome in H as (_ & _ & H); [|discriminate].
      rewrite H in Ht. split; [reflexivity|].
      destruct (3 <=? length (completedChapters s))%nat eqn:E;
        [|discriminate].
      now apply Nat.leb_le.
    + apply quiz_submit_outcome in H as (_ & _ & H); [|discriminate].
      rewrite H in Ht. discriminate.
  - ends_cases. unfold onTaskClick in Ht.
    destruct (findTask (studyPlan s) week taskId); simpl in Ht;
      [discriminate | contradiction].
  - apply task_completion_outcome in H as [[H | [H | H]] _];
      rewrite H in Ht; [contradiction | discriminate | discriminate].
  - ends_cases. simpl in Ht. contradiction.
  - unfold handleReschedule in H.
    destruct (negb (JS.truthy (missedDate s))); ends_cases; simpl in Ht;
      contradiction.
Qed.

Lemma set_add_length (l : list string) (x : string) :
  (length l <= length (JS.set_add l x))%nat.
Proof.
  unfold JS.set_add. case_bool_decide; [lia|]. rewrite length_app. lia.
Qed.

Lemma reaches_NoDup_length (s t : State) :
  NoDup (completedChapters s) -> reaches s t ->
  NoDup (completedChapters t)
  /\ (length (completedChapters s) <= length (completedChapters t))%nat.
Proof.
  intros Hs. induction 1 as [|clk e s1 s2 _ [IHn IHl] He].
  - split; [exact Hs | lia].
  - apply dispatch_completed_chapters in He as [-> | [c ->]];
      [split; assumption|].
    split; [apply NoDup_Set_of|].
    rewrite (Set_of_snoc _ c IHn).
    pose proof (set_add_length (completedChapters s1) c). lia.
Qed.

(** C8. A submitted chapter quiz leads to step 10 if and only if at
    least three chapters are completed, and no other event enters step
    10; the list of completed chapters holds no chapter twice, so its
    length is the size of the set; and no sequence of events removes a
    chapter from it or makes it shorter. *)
Theorem three_chapter_transition :
  (forall clk s t,
      ends (handleQuizSubmit clk s QuizType.chapter) t ->
      (step t = 10 <-> (3 <= length (completedChapters s))%nat))
  /\ (forall clk s e t,
         ends (dispatch clk s e) t -> step s <> 10 -> step t = 10 ->
         e = QuizSubmit QuizType.chapter
         /\ (3 <= length (completedChapters s))%nat)
  /\ (forall s t c,
         reaches s t -> c ∈ completedChapters s -> c ∈ completedChapters t)
  /\ (forall t, reaches initialState t -> NoDup (completedChapters t))
  /\ (forall s t,
         NoDup (completedChapters s) -> reaches s t ->
         (length (completedChapters s) <= length (completedChapters t))%nat).
Proof.
  split; [|split; [|split; [|split]]].
  - intros clk s t H.
    apply quiz_submit_outcome in H as (_ & _ & H); [|discriminate].
    rewrite H.
    destruct (3 <=? length (completedChapters s))%nat eqn:E.
    + apply Nat.leb_le in E. tauto.
    + apply Nat.leb_gt in E. split; [discriminate | lia].
  - intros clk s e t. apply dispatch_enters_step_10.
  - intros s t c H. induction H as [|clk e s1 s2 _ IH He]; [tauto|].
    intros Hc. specialize (IH Hc).
    apply dispatch_completed_chapters in He as [-> | [x ->]]; [exact IH|].
    apply elem_of_Set_of, elem_of_app. now left.
  - intros t H. apply (reaches_NoDup_length initialState t); [|exact H].
    constructor.
  - intros s t Hs H. now apply reaches_NoDup_length.
Qed.

Lemma three_chapter_transition_witness :
  let s := setCompletedChapters ["Motion"; "Force"; "Energy"]
             (setStep 9 initialState) in
  let s' := setCompletedChapters ["Motion"; "Force"] (setStep 9 initialState) in
  let submit x :=
    snd (run (Examples.accepting []) (handleQuizSubmit Examples.clock x QuizType.chapter)) in
  step (submit s) = 10 /\ step (submit s') <> 10.
Proof.
  intros s s' submit. split.
  - apply (proj1 three_chapter_transition Examples.clock s (submit s)
             (run_ends _ _)).
    simpl. lia.
  - intros H.
    apply (proj1 three_chapter_transition Examples.clock s' (submit s')
             (run_ends _ _)) in H.
    simpl in H. lia.
Defined.

End ThreeChapters.

(** ** Scoring of the initial quiz *)

Section InitialQuiz.

Import StudyPlanPage Scoring.

Lemma initialBody_fst (answers : gmap nat string) (n : nat)
  (w : list string) (q : QuizQuestion.t) (i : nat) :
  fst (initialBody answers (n, w) q i)
  = if correct answers i q then S n else n.
Proof.
  unfold initialBody.
  destruct (correct answers i q); [reflexivity|].
  destruct (JS.truthy_opt (QuizQuestion.chapter q)); reflexivity.
Qed.

Lemma initialBody_snd (answers : gmap nat string) (n : nat)
  (w : list string) (q : QuizQuestion.t) (i : nat) :
  snd (initialBody answers (n, w) q i)
  = w ++ match missedChapter answers (i, q) with
         | Some c => [c]
         | None => []
         end.
Proof.
  unfold initialBody, missedChapter. cbn [fst snd].
  destruct (correct answers i q); [now rewrite app_nil_r|].
  destruct (QuizQuestion.chapter q) as [c|]; cbn [JS.truthy_opt];
    [destruct (JS.truthy c)|]; cbn [snd]; now rewrite ?app_nil_r.
Qed.

Lemma omap_cons_match {A B} (f : A -> option B) (x : A) (l : list A) :
  omap f (x :: l)
  = match f x with
    | Some y => y :: omap f l
    | None => omap f l
    end.
Proof. reflexivity. Qed.

Lemma forEach_initialBody (answers : gmap nat string)
  (quiz : list QuizQuestion.t) (i n : nat) (w : list string) :
  forEach (initialBody answers) quiz i (n, w)
  = ((n + length (List.filter (fun iq => correct answers (fst iq) (snd iq))
                    (imap (fun j => pair (i + j)%nat) quiz)))%nat,
     w ++ omap (missedChapter answers) (imap (fun j => pair (i + j)%nat) quiz)).
Proof.
  revert i n w. induction quiz as [|q r IH]; intros i n w.
  - simpl. now rewrite Nat.add_0_r, app_nil_r.
  - cbn [forEach].
    rewrite (surjective_pairing (initialBody answers (n, w) q i)), IH.
    rewrite initialBody_fst, initialBody_snd.
    rewrite imap_cons, Nat.add_0_r.
    rewrite (imap_ext ((fun j => pair (i + j)%nat) ∘ S)
               (fun j => pair (S i + j)%nat) r)
      by (intros j x _; simpl; f_equal; lia).
    rewrite omap_cons_match. cbn [List.filter fst snd].
    f_equal.
    + destruct (correct answers i q); cbn [length]; lia.
    + rewrite <- app_assoc.
      now destruct (missedChapter answers (i, q)).
Qed.

(** The loop of [handleInitialQuizSubmit] counts the matching answers
    and lists the tagged chapters of the other questions in order,
    repetitions included. *)
Lemma initial_quiz_scoring (answers : gmap nat string)
  (quiz : list QuizQuestion.t) :
  forEach (initialBody answers) quiz 0%nat (0%nat, [])
  = (spec_score answers quiz, spec_misses answers quiz).
Proof.
  rewrite forEach_initialBody. reflexivity.
Qed.

(** The scenario of the specification: score 2 and weak chapter Ch2, in
    the loop and in the state after the submission. *)
Lemma initial_quiz_scenario :
  forEach (initialBody Examples.answers3) Examples.quiz3 0%nat (0%nat, [])
  = (2%nat, ["Ch2"])
  /\ (let t := snd (run (Examples.accepting [])
                      (handleQuizSubmit Examples.clock Examples.atQuiz3
                         QuizType.initial)) in
      quizScore t = Some 2%nat /\ weakChapters t = ["Ch2"]).
Proof. repeat split. Qed.

(** C2 at the failing input. Two unanswered questions of chapter Ch1:
    the submission of the initial quiz leaves Ch1 twice in the weak
    chapters and sends it twice with the request for the plan, although
    the set of the two misses has one member. *)
Theorem initial_quiz_keeps_repeated_chapter :
  let s := Examples.atQuizSameChapter in
  let r := run (Examples.accepting [])
             (handleQuizSubmit Examples.clock s QuizType.initial) in
  quizScore (snd r) = Some 0%nat
  /\ weakChapters (snd r) = ["Ch1"; "Ch1"]
  /\ ~ NoDup (weakChapters (snd r))
  /\ (exists body, fst r = [ReqPostStudyPlans body]
                   /\ pr_weak_chapters body = ["Ch1"; "Ch1"])
  /\ JS.Set_of ["Ch1"; "Ch1"] = ["Ch1"].
Proof.
  split; [reflexivity|]. split; [reflexivity|]. split.
  - intros H. change (NoDup ["Ch1"; "Ch1"]) in H.
    apply NoDup_cons in H as [H _]. apply H. left.
  - split; [|reflexivity]. eexists. split; reflexivity.
Qed.

End InitialQuiz.

(** ** The 0.6 threshold on the weak chapters *)

Section Threshold.

Import StudyPlanPage.

Lemma of_nat_is_zero (n : nat) : Qeq_bool (JS.of_nat n) 0 = (n =? 0)%nat.
Proof. destruct n; reflexivity. Qed.

Lemma of_nat_succ_positive (n : nat) : JS.Qltb 0 (JS.of_nat (S n)) = true.
Proof. reflexivity. Qed.

(** A ratio of counts is below 0.6 when there are questions and
    [5 * score < 3 * length]; without questions it is [NaN] or infinite. *)
Lemma ratio_below_threshold (score : nat) (quiz : list QuizQuestion.t) :
  JS.ltb (ratio score quiz) (JS.Num (6 # 10)) = true
  <-> quiz <> [] /\ (5 * score < 3 * length quiz)%nat.
Proof.
  unfold ratio, JS.div. rewrite !of_nat_is_zero.
  destruct quiz as [|q r]; cbn [length Nat.eqb].
  - destruct score as [|k]; cbn [Nat.eqb].
    + simpl. intuition congruence.
    + rewrite of_nat_succ_positive. simpl. intuition congruence.
  - cbn [JS.ltb]. rewrite Qltb_lt. unfold JS.of_nat.
    set (n := Z.of_nat (S (length r))).
    assert (Hpos : (0 < n)%Z) by (subst n; lia).
    assert (Hn : (0 < inject_Z n)%Q) by (unfold Qlt; simpl; lia).
    assert (Hne : ~ (inject_Z n == 0)%Q).
    { intros Hz. rewrite Hz in Hn. discriminate Hn. }
    assert (Hcancel : (inject_Z (Z.of_nat score) / inject_Z n * inject_Z n
                       == inject_Z (Z.of_nat score))%Q).
    { unfold Qdiv. rewrite <- Qmult_assoc.
      rewrite (Qmult_comm (/ inject_Z n)).
      rewrite Qmult_inv_r by exact Hne. apply Qmult_1_r. }
    rewrite <- (Qmult_lt_r _ _ _ Hn), Hcancel.
    unfold Qlt. simpl. subst n.
    split.
    + intros H. split; [discriminate | lia].
    + intros [_ H]. lia.
Qed.

(** For the topic, chapter and three-chapter quizzes the weak chapters
    are replaced by the set of the accumulator exactly when the ratio is
    below 0.6, and are left as they were otherwise. *)
Lemma other_quizzes_respect_threshold (clk : Clock) (s t : State)
  (ty : QuizType.t) :
  ty <> QuizType.initial ->
  ends (handleQuizSubmit clk s ty) t ->
  let r := forEach (quizBody ty (selectedChapter s) (answersOf s ty))
             (quizOf s ty) 0%nat (0%nat, weakChapters s) in
  (quizOf s ty <> [] /\ (5 * fst r < 3 * length (quizOf s ty))%nat ->
   weakChapters t = JS.Set_of (snd r))
  /\ (~ (quizOf s ty <> [] /\ (5 * fst r < 3 * length (quizOf s ty))%nat) ->
      weakChapters t = weakChapters s).
Proof.
  intros Hty H r.
  apply quiz_submit_outcome in H as (Hw & _); [|exact Hty].
  rewrite Hw. unfold afterScoring. fold r.
  destruct (JS.ltb (ratio (fst r) (quizOf s ty)) (JS.Num (6 # 10))) eqn:E.
  - apply ratio_below_threshold in E. split; [reflexivity | tauto].
  - split; [|reflexivity]. intros Hlt.
    apply ratio_below_threshold in Hlt. congruence.
Qed.

(** C5 at the failing input. The initial quiz of the specification's
    scenario is answered with 2 of 3 right, a ratio not below 0.6; the
    weak chapters were empty before and hold the missed chapter Ch2
    after the submission, whether the request for the plan is accepted
    or rejected. *)
Theorem initial_quiz_ignores_threshold :
  let s := Examples.atQuiz3 in
  let submit srv :=
    snd (run srv (handleQuizSubmit Examples.clock s QuizType.initial)) in
  weakChapters s = []
  /\ quizScore (submit (Examples.accepting [])) = Some 2%nat
  /\ JS.ltb (ratio 2 (initialQuiz s)) (JS.Num (6 # 10)) = false
  /\ weakChapters (submit (Examples.accepting [])) = ["Ch2"]
  /\ weakChapters (submit Examples.rejecting) = ["Ch2"].
Proof. repeat split. Qed.

End Threshold.

(** * Further properties of the code *)

(** ** The quiz component *)

Section QuizComponent.

Import QuizInterface.

Lemma handle_quiz (v : View) (e : event) : quiz (handle v e) = quiz v.
Proof.
  destruct e; simpl; [reflexivity | unfold handleNext | unfold handlePrevious];
    match goal with |- context [if ?b then _ else _] => destruct b end;
    reflexivity.
Qed.

Lemma reaches_quiz (v v' : View) : reaches v v' -> quiz v' = quiz v.
Proof.
  induction 1 as [|e v1 _ IH _]; [reflexivity|]. now rewrite handle_quiz.
Qed.

Lemma handle_index (v : View) (e : event) :
  (currentQuestion v <= pred (length (quiz v)))%nat ->
  (currentQuestion (handle v e) <= pred (length (quiz v)))%nat.
Proof.
  intros H. destruct e; simpl; [exact H | unfold handleNext | unfold handlePrevious].
  - destruct (Z.of_nat (currentQuestion v) <? Z.of_nat (length (quiz v)) - 1)%Z
      eqn:E; simpl; [|exact H].
    apply Z.ltb_lt in E. lia.
  - destruct (0 <? currentQuestion v)%nat; simpl; lia.
Qed.

(** X1. Whatever the student presses, the index of the current question
    stays inside the quiz the component was mounted on: on a quiz with
    questions there always is a current question, and on an empty quiz
    the index stays 0. *)
Theorem quiz_index_in_range (questions : list QuizQuestion.t)
  (given : gmap nat string) (v : View) :
  reaches (mount questions given) v ->
  quiz v = questions
  /\ (currentQuestion v <= pred (length questions))%nat
  /\ (questions <> [] -> is_Some (quiz v !! currentQuestion v)).
Proof.
  intros H.
  assert (Hq : quiz v = questions) by (apply (reaches_quiz _ _ H)).
  assert (Hi : (currentQuestion v <= pred (length questions))%nat).
  { clear Hq. induction H as [|e v1 H1 IH _]; [simpl; lia|].
    pose proof (reaches_quiz _ _ H1) as Hq1. simpl in Hq1.
    rewrite <- Hq1 in *. now apply handle_index. }
  split; [exact Hq|]. split; [exact Hi|].
  intros Hne. rewrite Hq. apply lookup_lt_is_Some.
  destruct questions; [congruence | simpl in *; lia].
Qed.

Lemma quiz_index_in_range_witness :
  let v := handle (handle (handle (mount Examples.quiz3 ∅) Next) Next) Next in
  reaches (mount Examples.quiz3 ∅) v
  /\ currentQuestion v = 2%nat
  /\ is_Some (quiz v !! currentQuestion v).
Proof.
  intros v.
  assert (H : reaches (mount Examples.quiz3 ∅) v).
  { repeat (apply reaches_next; [|exact I]). apply reaches_here. }
  split; [exact H|]. split; [reflexivity|].
  apply (proj2 (proj2 (quiz_index_in_range Examples.quiz3 ∅ v H))).
  discriminate.
Defined.

(** X2. Next and Previous undo each other: going forward from a question
    that is not the last one and then back, or back from a question that
    is not the first one and then forward, gives the same view. At the
    last question Next does nothing, at the first one Previous does
    nothing. *)
Theorem quiz_next_previous (v : View) :
  ((currentQuestion v + 1 < length (quiz v))%nat ->
   handlePrevious (handleNext v) = v)
  /\ ((0 < currentQuestion v < length (quiz v))%nat ->
      handleNext (handlePrevious v) = v)
  /\ ((length (quiz v) <= currentQuestion v + 1)%nat -> handleNext v = v)
  /\ (currentQuestion v = 0%nat -> handlePrevious v = v).
Proof.
  destruct v as [q a c]. unfold handleNext, handlePrevious. simpl.
  split; [|split; [|split]].
  - intros H.
    destruct (Z.of_nat c <? Z.of_nat (length q) - 1)%Z eqn:E.
    + simpl. replace (c + 1 - 1)%nat with c by lia.
      destruct (0 <? c + 1)%nat eqn:E'; [reflexivity|].
      apply Nat.ltb_ge in E'. lia.
    + apply Z.ltb_ge in E. lia.
  - intros H.
    destruct (0 <? c)%nat eqn:E; [|apply Nat.ltb_ge in E; lia].
    simpl.
    destruct (Z.of_nat (c - 1) <? Z.of_nat (length q) - 1)%Z eqn:E'.
    + simpl. f_equal. lia.
    + apply Z.ltb_ge in E'. lia.
  - intros H.
    destruct (Z.of_nat c <? Z.of_nat (length q) - 1)%Z eqn:E; [|reflexivity].
    apply Z.ltb_lt in E. lia.
  - intros ->. reflexivity.
Qed.

Lemma quiz_next_previous_witness :
  let v := mount Examples.quiz3 ∅ in
  (currentQuestion v + 1 < length (quiz v))%nat
  /\ handlePrevious (handleNext v) = v.
Proof.
  intros v.
  assert (H : (currentQuestion v + 1 < length (quiz v))%nat) by (simpl; lia).
  split; [exact H|]. exact (proj1 (quiz_next_previous v) H).
Defined.

End QuizComponent.

Section QuizAnswers.

Import QuizInterface.

(** The stored answers belong to questions of the quiz and are options
    of their question. *)
Lemma chosen_option_shown (v : View) (option : string) :
  option ∈ shownOptions v ->
  exists q, quiz v !! currentQuestion v = Some q
            /\ option ∈ QuizQuestion.options q.
Proof.
  unfold shownOptions.
  destruct (0 <? length (quiz v))%nat; [|intros H; inversion H].
  destruct (quiz v !! currentQuestion v) as [q|]; [|intros H; inversion H].
  intros H. now exists q.
Qed.

Lemma reaches_answers_of_quiz (questions : list QuizQuestion.t)
  (given : gmap nat string) (v : View) :
  (forall i o, given !! i = Some o ->
     exists q, questions !! i = Some q /\ o ∈ QuizQuestion.options q) ->
  reaches (mount questions given) v ->
  forall i o, answers v !! i = Some o ->
    exists q, questions !! i = Some q /\ o ∈ QuizQuestion.options q.
Proof.
  intros Hgiven H. induction H as [|e v1 H1 IH Hoff]; [exact Hgiven|].
  pose proof (reaches_quiz _ _ H1) as Hq. simpl in Hq.
  destruct e as [option | |]; simpl.
  - intros i o. destruct (decide (currentQuestion v1 = i)) as [<- | Hne].
    + rewrite lookup_insert_eq. intros [= <-].
      apply chosen_option_shown in Hoff. now rewrite Hq in Hoff.
    + rewrite lookup_insert_ne by exact Hne. apply IH.
  - unfold handleNext. destruct (_ <? _)%Z; exact IH.
  - unfold handlePrevious. destruct (_ <? _)%nat; exact IH.
Qed.

Lemma answers_cover_quiz (questions : list QuizQuestion.t)
  (a : gmap nat string) :
  (forall i, is_Some (a !! i) -> (i < length questions)%nat) ->
  size a = length questions ->
  forall i, (i < length questions)%nat -> is_Some (a !! i).
Proof.
  intros Hin Hsize i Hi.
  assert (Hsub : dom a ⊆ (set_seq 0 (length questions) : gset nat)).
  { intros j Hj. apply elem_of_dom in Hj. apply elem_of_set_seq.
    specialize (Hin j Hj). lia. }
  assert (Heq : dom a = (set_seq 0 (length questions) : gset nat)).
  { apply set_subseteq_size_eq; [exact Hsub|].
    rewrite size_set_seq, size_dom. lia. }
  apply elem_of_dom. rewrite Heq. apply elem_of_set_seq. lia.
Qed.

(** X3. On a quiz shown with answers that are options of its questions
    (none, for a first attempt), the submit button is enabled only when
    every question has an answer, and each answer is one of the options
    of its question. *)
Theorem submit_needs_every_answer (questions : list QuizQuestion.t)
  (given : gmap nat string) (v : View) :
  (forall i o, given !! i = Some o ->
     exists q, questions !! i = Some q /\ o ∈ QuizQuestion.options q) ->
  reaches (mount questions given) v ->
  submitEnabled v = true ->
  forall i q, questions !! i = Some q ->
    exists o, answers v !! i = Some o /\ o ∈ QuizQuestion.options q.
Proof.
  intros Hgiven H Hsub i q Hq.
  pose proof (reaches_answers_of_quiz _ _ _ Hgiven H) as Hwf.
  pose proof (reaches_quiz _ _ H) as Hquiz. simpl in Hquiz.
  unfold submitEnabled in Hsub. apply andb_true_iff in Hsub as [_ Hsize].
  apply Nat.eqb_eq in Hsize. rewrite Hquiz in Hsize.
  destruct (answers_cover_quiz questions (answers v)) with (i := i)
    as [o Ho].
  - intros j [o Ho]. destruct (Hwf j o Ho) as (q' & Hq' & _).
    now apply lookup_lt_Some in Hq'.
  - exact Hsize.
  - now apply lookup_lt_Some in Hq.
  - exists o. split; [exact Ho|].
    destruct (Hwf i o Ho) as (q' & Hq' & Hin). congruence.
Qed.

Lemma submit_needs_every_answer_witness :
  let v := handle (handle (handle (handle (handle (mount Examples.quiz3 ∅)
             (Choose "A")) Next) (Choose "B")) Next) (Choose "C") in
  reaches (mount Examples.quiz3 ∅) v
  /\ submitEnabled v = true
  /\ forall i q, Examples.quiz3 !! i = Some q ->
       exists o, answers v !! i = Some o /\ o ∈ QuizQuestion.options q.
Proof.
  intros v.
  assert (H : reaches (mount Examples.quiz3 ∅) v).
  { unfold v.
    apply reaches_next; [|simpl; unfold shownOptions; simpl; set_solver].
    apply reaches_next; [|exact I].
    apply reaches_next; [|simpl; unfold shownOptions; simpl; set_solver].
    apply reaches_next; [|exact I].
    apply reaches_next; [|simpl; unfold shownOptions; simpl; set_solver].
    apply reaches_here. }
  split; [exact H|]. split; [reflexivity|].
  apply (submit_needs_every_answer Examples.quiz3 ∅ v).
  - intros i o Hi. rewrite lookup_empty in Hi. discriminate.
  - exact H.
  - reflexivity.
Defined.

Lemma handle_size (v : View) (e : event) :
  (size (answers v) <= size (answers (handle v e)))%nat.
Proof.
  destruct e as [option | |]; simpl.
  - destruct (answers v !! currentQuestion v) as [o|] eqn:E.
    + rewrite <- (insert_delete_id (answers v) (currentQuestion v) o E) at 1.
      rewrite <- (insert_delete_eq (answers v)).
      rewrite !map_size_insert_None by apply lookup_delete_eq. lia.
    + rewrite map_size_insert_None by exact E. lia.
  - unfold handleNext. destruct (_ <? _)%Z; simpl; lia.
  - unfold handlePrevious. destruct (_ <? _)%nat; simpl; lia.
Qed.

(** X4. The component only adds or replaces answers: their number never
    goes down, whatever is pressed. A view that holds more answers than
    its quiz has questions - answers left from an earlier, longer quiz -
    can therefore never enable the submit button. *)
Theorem stale_answers_block_submit (v v' : View) :
  reaches v v' ->
  (size (answers v) <= size (answers v'))%nat
  /\ ((length (quiz v) < size (answers v))%nat -> submitEnabled v' = false).
Proof.
  intros H.
  assert (Hsize : (size (answers v) <= size (answers v'))%nat).
  { induction H as [|e v1 _ IH _]; [lia|].
    pose proof (handle_size v1 e). lia. }
  split; [exact Hsize|]. intros Hmore.
  unfold submitEnabled. rewrite (reaches_quiz _ _ H).
  destruct (size (answers v') =? length (quiz v))%nat eqn:E.
  - apply Nat.eqb_eq in E. lia.
  - apply andb_false_r.
Qed.

Lemma stale_answers_block_submit_witness :
  let old : gmap nat string :=
    {[ 0%nat := "A"; 1%nat := "B"; 2%nat := "C"; 3%nat := "A" ]} in
  let v := mount Examples.quiz3 old in
  let v' := handle (handle (handle v Next) Next) (Choose "C") in
  reaches v v'
  /\ (length (quiz v) < size (answers v))%nat
  /\ submitShown v' = true
  /\ submitEnabled v' = false.
Proof.
  intros old v v'.
  assert (H : reaches v v').
  { unfold v'.
    apply reaches_next; [|simpl; unfold shownOptions; simpl; set_solver].
    apply reaches_next; [|exact I].
    apply reaches_next; [|exact I].
    apply reaches_here. }
  assert (Hmore : (length (quiz v) < size (answers v))%nat).
  { vm_compute. lia. }
  split; [exact H|]. split; [exact Hmore|]. split; [reflexivity|].
  exact (proj2 (stale_answers_block_submit v v' H) Hmore).
Defined.

End QuizAnswers.

(** ** Scoring of every quiz type *)

Section Scores.

Import StudyPlanPage Scoring.

Lemma forEach_counts {L : Type} (answers : gmap nat string)
  (score : L -> nat) (body : L -> QuizQuestion.t -> nat -> L) :
  (forall acc q i,
      score (body acc q i)
      = if correct answers i q then S (score acc) else score acc) ->
  forall quiz i acc,
    score (forEach body quiz i acc)
    = (score acc
       + length (List.filter (fun iq => correct answers (fst iq) (snd iq))
                   (imap (fun j => pair (i + j)%nat) quiz)))%nat.
Proof.
  intros Hbody quiz. induction quiz as [|q r IH]; intros i acc.
  - simpl. lia.
  - cbn [forEach]. rewrite IH, Hbody, imap_cons, Nat.add_0_r.
    rewrite (imap_ext ((fun j => pair (i + j)%nat) ∘ S)
               (fun j => pair (S i + j)%nat) r)
      by (intros j x _; simpl; f_equal; lia).
    cbn [List.filter fst snd].
    destruct (correct answers i q); cbn [length]; lia.
Qed.

Lemma quizBody_score (ty : QuizType.t) (sel : option string)
  (answers : gmap nat string) (acc : nat * list string)
  (q : QuizQuestion.t) (i : nat) :
  fst (quizBody ty sel answers acc q i)
  = if correct answers i q then S (fst acc) else fst acc.
Proof.
  unfold quizBody. destruct (correct answers i q); [reflexivity|].
  repeat match goal with
         | |- context [if ?b then _ else _] => destruct b
         end; reflexivity.
Qed.

Lemma filter_length_all {A} (f : A -> bool) (l : list A) :
  (length (List.filter f l) <= length l)%nat
  /\ (length (List.filter f l) = length l <-> forallb f l = true).
Proof.
  induction l as [|x r [IHle IHeq]]; simpl; [split; [lia | tauto]|].
  destruct (f x); simpl.
  - split; [lia|]. rewrite <- IHeq. split; lia.
  - split; [lia|]. split; [lia | discriminate].
Qed.

Lemma forallb_indexed {A} (f : nat * A -> bool) (l : list A) :
  forallb f (imap pair l) = true
  <-> forall i x, l !! i = Some x -> f (i, x) = true.
Proof.
  rewrite forallb_forall. split.
  - intros H i x Hx. apply H. apply list_elem_of_In.
    apply list_elem_of_lookup. exists i.
    now rewrite list_lookup_imap, Hx.
  - intros H [i x] Hin. apply list_elem_of_In in Hin.
    apply list_elem_of_lookup in Hin as [j Hj].
    rewrite list_lookup_imap in Hj.
    destruct (l !! j) as [y|] eqn:Ey; simpl in Hj; [|discriminate].
    injection Hj as <- <-. now apply H.
Qed.

Lemma quiz_score_counts_aux (ty : QuizType.t) (sel : option string)
  (answers : gmap nat string) (questions : list QuizQuestion.t)
  (weak : list string) :
  fst (forEach (quizBody ty sel answers) questions 0%nat (0%nat, weak))
  = spec_score answers questions
  /\ fst (forEach (quizBody ty sel answers) questions 0%nat (0%nat, weak))
     = fst (forEach (initialBody answers) questions 0%nat (0%nat, [])).
Proof.
  assert (Hs : fst (forEach (quizBody ty sel answers) questions 0%nat
                      (0%nat, weak))
               = spec_score answers questions).
  { rewrite (forEach_counts answers fst (quizBody ty sel answers)
               (quizBody_score ty sel answers)).
    reflexivity. }
  split; [exact Hs|]. rewrite Hs, initial_quiz_scoring. reflexivity.
Qed.

(** X5. For every quiz type the loop of [handleQuizSubmit] counts the
    questions whose stored answer equals the key, as the loop of the
    initial quiz does: the score never exceeds the number of questions
    and equals it exactly when every question is answered with its key.
    The weak chapters the loop starts from have no bearing on it. *)
Theorem quiz_score_counts (ty : QuizType.t) (sel : option string)
  (answers : gmap nat string) (questions : list QuizQuestion.t)
  (weak : list string) :
  let score :=
    fst (forEach (quizBody ty sel answers) questions 0%nat (0%nat, weak)) in
  score = spec_score answers questions
  /\ score = fst (forEach (initialBody answers) questions 0%nat (0%nat, []))
  /\ (score <= length questions)%nat
  /\ (score = length questions
      <-> forall i q, questions !! i = Some q ->
            answers !! i = Some (QuizQuestion.answer q)).
Proof.
  intros score.
  destruct (quiz_score_counts_aux ty sel answers questions weak) as [Hs Hi].
  fold score in Hs, Hi.
  split; [exact Hs|]. split; [exact Hi|].
  rewrite Hs. unfold spec_score, indexed.
  pose proof (filter_length_all
                (fun iq : nat * QuizQuestion.t => correct answers (fst iq) (snd iq))
                (imap pair questions)) as [Hle Heq].
  rewrite length_imap in Hle, Heq.
  split; [exact Hle|].
  rewrite Heq, forallb_indexed. unfold correct. cbn [fst snd].
  split; intros H i q Hq.
  - specialize (H i q Hq). now apply bool_decide_eq_true in H.
  - apply bool_decide_eq_true. now apply H.
Qed.

Lemma quizBody_extends (ty : QuizType.t) (sel : option string)
  (answers : gmap nat string) (acc : nat * list string)
  (q : QuizQuestion.t) (i : nat) :
  exists added, snd (quizBody ty sel answers acc q i) = snd acc ++ added.
Proof.
  unfold quizBody.
  repeat match goal with
         | |- context [if ?b then _ else _] => destruct b
         end; cbn [snd]; try (eexists; reflexivity);
    exists []; now rewrite app_nil_r.
Qed.

Lemma forEach_quizBody_extends (ty : QuizType.t) (sel : option string)
  (answers : gmap nat string) (quiz : list QuizQuestion.t) (i : nat)
  (acc : nat * list string) :
  exists added,
    snd (forEach (quizBody ty sel answers) quiz i acc) = snd acc ++ added.
Proof.
  revert i acc. induction quiz as [|q r IH]; intros i acc; cbn [forEach].
  - exists []. now rewrite app_nil_r.
  - destruct (IH (S i) (quizBody ty sel answers acc q i)) as [a2 H2].
    destruct (quizBody_extends ty sel answers acc q i) as [a1 H1].
    exists (a1 ++ a2). now rewrite H2, H1, app_assoc.
Qed.

(** X6. A topic, chapter or three-chapter submission never takes a
    chapter off the weak chapters, whatever the collaborator answers:
    every chapter that was weak before is weak after. When the list is
    rewritten it holds no chapter twice. *)
Theorem weak_chapters_are_kept (clk : Clock) (s t : State)
  (ty : QuizType.t) :
  ty <> QuizType.initial ->
  ends (handleQuizSubmit clk s ty) t ->
  (forall c, c ∈ weakChapters s -> c ∈ weakChapters t)
  /\ (weakChapters t = weakChapters s \/ NoDup (weakChapters t)).
Proof.
  intros Hty H.
  apply quiz_submit_outcome in H as (Hw & _); [|exact Hty].
  rewrite Hw. unfold afterScoring.
  destruct (forEach_quizBody_extends ty (selectedChapter s) (answersOf s ty)
              (quizOf s ty) 0%nat (0%nat, weakChapters s)) as [added Ha].
  cbn [snd] in Ha.
  destruct (JS.ltb _ _); cbn.
  - split; [|right; apply NoDup_Set_of].
    intros c Hc. apply elem_of_Set_of. rewrite Ha. apply elem_of_app. now left.
  - split; [tauto | now left].
Qed.

Lemma weak_chapters_are_kept_witness :
  let s := setChapterQuiz [Examples.taggedQuestion]
             (setWeakChapters ["Ch7"] (setStep 9 initialState)) in
  let t := snd (run (Examples.accepting [])
                  (handleQuizSubmit Examples.clock s QuizType.chapter)) in
  weakChapters t = ["Ch7"; "Ch2"] /\ "Ch7" ∈ weakChapters t.
Proof.
  intros s t. split; [reflexivity|].
  apply (proj1 (weak_chapters_are_kept Examples.clock s t QuizType.chapter
                  ltac:(discriminate) (run_ends _ _))).
  simpl. set_solver.
Defined.

End Scores.

(** ** What a quiz submission sends *)

Section SubmissionRequests.

Import StudyPlanPage Scoring.



Lemma of_nat_le (a b : nat) : (a <= b)%nat -> (JS.of_nat a <= JS.of_nat b)%Q.
Proof. intros H. unfold JS.of_nat, Qle. simpl. lia. Qed.




End SubmissionRequests.

(** ** What the handlers leave alone *)

Section Frames.

Import StudyPlanPage.

Lemma or_else_nonempty (detail : option string) (fallback : string) :
  fallback <> "" -> JS.or_else detail fallback <> "".
Proof.
  intros Hf. destruct detail as [d|]; simpl; [|exact Hf].
  unfold JS.or_str. destruct (JS.truthy d) eqn:E; [|exact Hf].
  now apply truthy_true.
Qed.

Ltac new_error :=
  right; eexists; split;
  [reflexivity | first [apply or_else_nonempty; discriminate | discriminate]].

Lemma quiz_submit_frame (clk : Clock) (s t : State) (ty : QuizType.t) :
  ends (handleQuizSubmit clk s ty) t ->
  (error t = error s \/ exists m, error t = Some m /\ m <> "")
  /\ (forall ty', answersOf t ty' = answersOf s ty')
  /\ (forall ty', quizOf t ty' = quizOf s ty').
Proof.
  unfold handleQuizSubmit, handleInitialQuizSubmit.
  destruct (forEach (quizBody ty (selectedChapter s) (answersOf s ty))
              (quizOf s ty) 0%nat (0%nat, weakChapters s)) as [score weak].
  destruct (forEach (initialBody (quizAnswers s)) (initialQuiz s) 0%nat
              (0%nat, [])) as [score' weak'].
  destruct (JS.ltb (ratio score (quizOf s ty)) (JS.Num (6 # 10)));
    destruct ty; try destruct (3 <=? length (completedChapters s))%nat;
    simpl; intros H; ends_cases; simpl in *; ends_cases;
    (split; [first [now left | new_error]
            | split; intros []; reflexivity]).
Qed.

Lemma task_completion_frame (s t : State) (week : string) (taskId : Z) :
  ends (handleTaskCompletion s week taskId) t ->
  (error t = error s \/ exists m, error t = Some m /\ m <> "")
  /\ (forall ty', answersOf t ty' = answersOf s ty')
  /\ (forall ty', quizOf t ty' = quizOf s ty').
Proof.
  unfold handleTaskCompletion.
  destruct (findTask (studyPlan s) week taskId) as [task|]; intros H;
    ends_cases;
    try (split; [first [now left | new_error]
                | split; intros []; reflexivity]).
  destruct (forallb StudyTask.completed
              (List.filter (sameTopic task) (allTasks (studyPlan s))));
    destruct (forallb StudyTask.completed
                (List.filter (sameChapter task) (allTasks (studyPlan s))));
    ends_cases;
    (split; [now left | split; intros []; reflexivity]).
Qed.

Lemma dispatch_frame (clk : Clock) (s t : State) (e : event) :
  ends (dispatch clk s e) t ->
  (error t = error s \/ exists m, error t = Some m /\ m <> "")
  /\ (forall ty', answersOf t ty' = answersOf s ty')
  /\ (forall ty', quizOf t ty' = quizOf s ty').
Proof.
  destruct e as [b | v | | ty | week taskId | week taskId | v |]; simpl;
    intros H.
  - ends_cases. split; [now left | split; intros []; reflexivity].
  - ends_cases. split; [now left | split; intros []; reflexivity].
  - ends_cases. unfold handleMarksSubmit.
    destruct (previousMarks s);
      (split; [first [now left | new_error] | split; intros []; reflexivity]).
  - now apply quiz_submit_frame in H.
  - ends_cases. unfold onTaskClick.
    destruct (findTask (studyPlan s) week taskId);
      (split; [now left | split; intros []; reflexivity]).
  - now apply task_completion_frame in H.
  - ends_cases. split; [now left | split; intros []; reflexivity].
  - unfold handleReschedule in H.
    destruct (negb (JS.truthy (missedDate s))); ends_cases;
      (split; [first [now left | new_error] | split; intros []; reflexivity]).
Qed.



(** X9. No sequence of wizard events changes the stored answers or the
    stored questions of any quiz type: in particular a submission does
    not clear the answers it has scored, so they are still there when
    the next quiz of that type is shown. *)
Theorem answers_survive_events (s t : State) :
  reaches s t ->
  forall ty, answersOf t ty = answersOf s ty /\ quizOf t ty = quizOf s ty.
Proof.
  induction 1 as [|clk e s1 s2 _ IH He]; [tauto|].
  intros ty. apply dispatch_frame in He as (_ & Ha & Hq).
  rewrite Ha, Hq. apply IH.
Qed.

Lemma answers_survive_events_witness :
  let s := Examples.atQuiz3 in
  let t := snd (run (Examples.accepting [])
                  (dispatch Examples.clock s (QuizSubmit QuizType.initial))) in
  reaches s t
  /\ step t = 6
  /\ answersOf t QuizType.initial = Examples.answers3.
Proof.
  intros s t.
  assert (H : reaches s t).
  { eapply reaches_next; [apply reaches_here | apply run_ends]. }
  split; [exact H|]. split; [reflexivity|].
  exact (proj1 (answers_survive_events s t H QuizType.initial)).
Defined.

End Frames.

(** ** Outcomes of the requests *)

Section RequestOutcomes.

Import StudyPlanPage Scoring.

(** X10. The submission of the initial quiz stores the score and the
    missed chapters of the attempt before the plan is requested. When
    the plan arrives it becomes the study plan and the wizard goes to
    step 6; when the request is rejected the wizard stays on its step
    with the plan it had and shows the detail of the rejection, or
    "Failed to generate study plan" without one - the stored score and
    weak chapters are not taken back. *)
Theorem initial_quiz_plan_outcome (clk : Clock) (s : State) (srv : server) :
  let t := snd (run srv (handleQuizSubmit clk s QuizType.initial)) in
  quizScore t = Some (spec_score (quizAnswers s) (initialQuiz s))
  /\ weakChapters t = spec_misses (quizAnswers s) (initialQuiz s)
  /\ (forall plan, (forall body, on_study_plans srv body = Resolved plan) ->
        step t = 6 /\ studyPlan t = plan /\ error t = error s)
  /\ (forall detail, (forall body, on_study_plans srv body = Rejected detail) ->
        step t = step s /\ studyPlan t = studyPlan s
        /\ error t = Some (JS.or_else detail "Failed to generate study plan")).
Proof.
  unfold handleQuizSubmit.
  destruct (forEach (quizBody QuizType.initial (selectedChapter s)
                       (answersOf s QuizType.initial))
              (quizOf s QuizType.initial) 0%nat (0%nat, weakChapters s))
    as [score weak].
  unfold handleInitialQuizSubmit. rewrite initial_quiz_scoring.
  cbn [andThen run].
  match goal with
  | |- context [on_study_plans ?a ?b] =>
      destruct (on_study_plans a b) as [plan0 | detail0] eqn:E
  end;
    destruct (JS.ltb (ratio score (quizOf s QuizType.initial)) (JS.Num (6 # 10)));
    cbn; (split; [reflexivity|]); (split; [reflexivity|]); split;
    intros x Hx; rewrite Hx in E;
    first [discriminate E | injection E as <-; repeat split].
Qed.

Lemma initial_quiz_plan_outcome_witness :
  let s := Examples.atQuiz3 in
  let plan := Examples.motionPlan false false false in
  let t := snd (run (Examples.accepting plan)
                  (handleQuizSubmit Examples.clock s QuizType.initial)) in
  let t' := snd (run Examples.rejecting
                   (handleQuizSubmit Examples.clock s QuizType.initial)) in
  (step t = 6 /\ studyPlan t = plan /\ error t = None)
  /\ (step t' = 4 /\ studyPlan t' = []
      /\ error t' = Some "Failed to generate study plan").
Proof.
  intros s plan t t'. split.
  - apply (proj1 (proj2 (proj2
             (initial_quiz_plan_outcome Examples.clock s
                (Examples.accepting plan)))) plan).
    reflexivity.
  - apply (proj2 (proj2 (proj2
             (initial_quiz_plan_outcome Examples.clock s Examples.rejecting)))
             None).
    reflexivity.
Defined.

(** X11. Completing a task: when the week holds no task with that id
    nothing is sent and nothing changes. When [PUT /task-progress] is
    rejected, [PUT /progress] is not sent and only the error changes.
    When the first request succeeds and [PUT /progress] is rejected, the
    plan of the first response stays stored while the progress log, the
    step and the completed chapters and topics stay as they were: the
    first write is not undone. *)
Theorem task_completion_failures (s : State) (week : string) (taskId : Z)
  (srv : server) :
  let r := run srv (handleTaskCompletion s week taskId) in
  (findTask (studyPlan s) week taskId = None -> r = ([], s))
  /\ (forall task detail,
        findTask (studyPlan s) week taskId = Some task ->
        on_task_progress srv (selectedSubject s) week taskId true 100
        = Rejected detail ->
        r = ([ReqPutTaskProgress (selectedSubject s) week taskId true 100],
             setError
               (Some (JS.or_else detail "Failed to update task progress")) s))
  /\ (forall task plan_data detail,
        findTask (studyPlan s) week taskId = Some task ->
        on_task_progress srv (selectedSubject s) week taskId true 100
        = Resolved plan_data ->
        on_progress srv (pretty taskId) true None = Rejected detail ->
        fst r = [ReqPutTaskProgress (selectedSubject s) week taskId true 100;
                 ReqPutProgress (pretty taskId) true None]
        /\ studyPlan (snd r) = plan_data
        /\ progress (snd r) = progress s
        /\ step (snd r) = step s
        /\ completedChapters (snd r) = completedChapters s
        /\ completedTopics (snd r) = completedTopics s
        /\ error (snd r)
           = Some (JS.or_else detail "Failed to update task progress")).
Proof.
  unfold handleTaskCompletion. split; [|split].
  - intros ->. reflexivity.
  - intros task detail -> Hp. cbn [run]. rewrite Hp. reflexivity.
  - intros task plan_data detail -> Hp Hq. cbn [run]. rewrite Hp.
    cbn [run]. rewrite Hq. repeat split.
Qed.

Lemma task_completion_failures_witness :
  let s := Examples.atPlan (Examples.motionPlan true true false) in
  let srv :=
    {| on_study_plans := fun _ => Rejected None;
       on_task_progress :=
         fun _ _ _ _ _ => Resolved (Examples.motionPlan true true true);
       on_progress := fun _ _ _ => Rejected (Some "log is read-only");
       on_reschedule := fun _ _ => Rejected None |} in
  let r := run srv (handleTaskCompletion s "1" 3) in
  run srv (handleTaskCompletion s "9" 3) = ([], s)
  /\ studyPlan (snd r) = Examples.motionPlan true true true
  /\ progress (snd r) = []
  /\ error (snd r) = Some "log is read-only".
Proof.
  intros s srv r. split.
  - apply (proj1 (task_completion_failures s "9" 3 srv)). reflexivity.
  - destruct (proj2 (proj2 (task_completion_failures s "1" 3 srv))
                (Examples.motionTask 3 false)
                (Examples.motionPlan true true true)
                (Some "log is read-only") eq_refl eq_refl eq_refl)
      as (_ & Hplan & Hprog & _ & _ & _ & Herr).
    split; [exact Hplan|]. split; [exact Hprog | exact Herr].
Defined.




End RequestOutcomes.

(** ** Rescheduling twice *)

Section RescheduleAgain.

Import StudyPlanPage.

Lemma nudge_without_missed (completed total : Z) (weak : list string) :
  String.prefix "Oops" (generateNudge completed total 0 weak) = false.
Proof.
  unfold generateNudge. cbn [Z.ltb Z.compare].
  destruct (negb (length weak =? 0)%nat); [reflexivity|].
  destruct (JS.Qltb (8 # 10) (rate completed total)); [reflexivity|].
  destruct (JS.Qltb (5 # 10) (rate completed total)); reflexivity.
Qed.

(** X13. After a reschedule that succeeded the plan of the response is
    stored, the date field is empty again and the nudge is computed with
    no missed task, so it never is the missed-tasks message; pressing
    Reschedule again without picking a new date is refused locally and
    sends nothing. *)
Theorem reschedule_then_again (s : State) (srv : server) (plan : StudyPlan) :
  missedDate s <> "" ->
  on_reschedule srv (selectedSubject s) (missedDate s) = Resolved plan ->
  let t := snd (run srv (handleReschedule s)) in
  studyPlan t = plan
  /\ missedDate t = ""
  /\ nudge t = generateNudge (Stats.completedTasks (stats s))
                 (Stats.totalTasks (stats s)) 0 (weakChapters s)
  /\ String.prefix "Oops" (nudge t) = false
  /\ run srv (handleReschedule t)
     = ([], setError (Some "Please select a missed date") t).
Proof.
  intros Hdate Hsrv. unfold handleReschedule at 1.
  apply truthy_true in Hdate. rewrite Hdate. cbn [negb run]. rewrite Hsrv.
  cbn. repeat split. apply nudge_without_missed.
Qed.

Lemma reschedule_then_again_witness :
  let s := setMissedDate "2025-01-07"
             (Examples.atPlan (Examples.motionPlan true false false)) in
  let srv := Examples.accepting (Examples.motionPlan true false false) in
  let t := snd (run srv (handleReschedule s)) in
  missedDate s <> ""
  /\ missedDate t = ""
  /\ fst (run srv (handleReschedule t)) = [].
Proof.
  intros s srv t.
  assert (H : missedDate s <> "") by discriminate.
  split; [exact H|].
  destruct (reschedule_then_again s srv (Examples.motionPlan true false false)
              H eq_refl) as (_ & Hd & _ & _ & Hr).
  split; [exact Hd|]. fold t in Hr. now rewrite Hr.
Defined.

End RescheduleAgain.

(** ** More on the dashboard *)

Section DashboardBounds.

Import Dashboard.



Lemma Qsum_bounds (l : list Progress.t) :
  Forall (fun p => forall x, Progress.score p = Some x ->
                             (0 <= x)%Q /\ (x <= 100)%Q) l ->
  (0 <= Qsum (map score_or_0 l))%Q
  /\ (Qsum (map score_or_0 l) <= 100 * JS.of_nat (length l))%Q.
Proof.
  induction 1 as [|p r Hp _ [IHlo IHhi]]; simpl.
  - split; [apply Qle_refl | unfold Qle; simpl; lia].
  - assert (Hs : (0 <= score_or_0 p)%Q /\ (score_or_0 p <= 100)%Q).
    { unfold score_or_0. destruct (Progress.score p) as [x|].
      - now apply Hp.
      - split; [apply Qle_refl | discriminate]. }
    destruct Hs as [Hlo Hhi]. split.
    + apply (Qle_trans _ (0 + 0)%Q); [unfold Qle; simpl; lia|].
      now apply Qplus_le_compat.
    + assert (E : (100 * JS.of_nat (S (length r))
                   == 100 + 100 * JS.of_nat (length r))%Q).
      { unfold JS.of_nat. rewrite Nat2Z.inj_succ. unfold Z.succ.
        rewrite inject_Z_plus. ring. }
      rewrite E. now apply Qplus_le_compat.
Qed.

Lemma filter_Forall {A} (P Q' : A -> Prop) `{forall x, Decision (P x)}
  (l : list A) : Forall Q' l -> Forall Q' (filter P l).
Proof.
  intros HF. apply Forall_forall. intros x Hx.
  apply list_elem_of_filter in Hx as [_ Hx].
  rewrite Forall_forall in HF. now apply HF.
Qed.

(** X15. On a log whose scores are percentages (between 0 and 100) and
    in which only completed records carry a score, the average shown by
    the dashboard is a percentage too: an integer between 0 and 100. *)
Theorem average_score_is_percentage (progress : list Progress.t) :
  Forall (fun p => forall x, Progress.score p = Some x ->
                             (0 <= x)%Q /\ (x <= 100)%Q) progress ->
  Forall (fun p => Progress.completed p = false -> Progress.score p = None)
    progress ->
  0 <= averageScore (getProgressStats progress) <= 100.
Proof.
  intros Hrange Hdone.
  set (done := filter (fun p => Progress.completed p = true) progress).
  assert (Hsum : (fold_left (fun sum p => sum + score_or_0 p) progress 0
                  == Qsum (map score_or_0 done))%Q).
  { rewrite fold_left_scores, Qplus_0_l. now apply Qsum_completed_only. }
  destruct (Qsum_bounds done) as [Hlo Hhi].
  { now apply filter_Forall. }
  assert (Hpos : (0 < JS.of_nat (or_1 (length done)))%Q).
  { unfold JS.of_nat, Qlt. simpl. destruct (length done); simpl; lia. }
  assert (Hden : (JS.of_nat (length done) <= JS.of_nat (or_1 (length done)))%Q).
  { apply of_nat_le. rewrite or_1_max. lia. }
  set (x := (fold_left (fun sum p => sum + score_or_0 p) progress 0
             / JS.of_nat (or_1 (length done)))%Q).
  assert (Hx0 : (0 <= x)%Q).
  { unfold x. apply Qle_shift_div_l; [exact Hpos|].
    rewrite Qmult_0_l, Hsum. exact Hlo. }
  assert (Hx100 : (x <= 100)%Q).
  { unfold x. apply Qle_shift_div_r; [exact Hpos|]. rewrite Hsum.
    eapply Qle_trans; [exact Hhi|].
    apply Qmult_le_l; [reflexivity | exact Hden]. }
  change (averageScore (getProgressStats progress)) with (JS.round x).
  unfold JS.round. split.
  - change 0 with (Qfloor 0). apply Qfloor_resp_le.
    apply (Qle_trans _ (0 + 0)%Q); [unfold Qle; simpl; lia|].
    apply Qplus_le_compat; [exact Hx0 | discriminate].
  - change 100 with (Qfloor (100 + (1 # 2))). apply Qfloor_resp_le.
    apply Qplus_le_compat; [exact Hx100 | apply Qle_refl].
Qed.

Lemma average_score_is_percentage_witness :
  let log := [Progress.mk "7" true None;
              Progress.mk "topic_quiz_1" true (Some (200 # 3));
              Progress.mk "8" false None] in
  averageScore (getProgressStats log) = 33
  /\ 0 <= averageScore (getProgressStats log) <= 100.
Proof.
  intros log. split; [reflexivity|].
  apply (average_score_is_percentage log).
  - repeat first [apply Forall_nil_2 | apply Forall_cons_2];
      intros x Hx; simpl in Hx;
      first [discriminate Hx
            | injection Hx as <-; split; unfold Qle; simpl; lia].
  - repeat first [apply Forall_nil_2 | apply Forall_cons_2];
      simpl; first [discriminate | reflexivity].
Defined.

End DashboardBounds.

(** ** Statistics of a loaded plan *)

Section PlanStatistics.

Import StudyPlanPage Wizard.

Variable past : string -> bool.

Lemma fold_weeks {L : Type} (f : L -> StudyTask.t -> L) (plan : StudyPlan)
  (acc : L) :
  fold_left (fun acc week => fold_left f (snd week) acc) plan acc
  = fold_left f (allTasks plan) acc.
Proof.
  revert acc. induction plan as [|w r IH]; intros acc; [reflexivity|].
  unfold allTasks. simpl. rewrite fold_left_app. apply IH.
Qed.

Lemma fold_countTask (tasks : list StudyTask.t) (c t m : Z) :
  fold_left (countTask past) tasks (c, t, m)
  = (c + Z.of_nat (length (List.filter StudyTask.completed tasks)),
     t + Z.of_nat (length tasks),
     m + Z.of_nat
           (length (List.filter
                      (fun x => negb (StudyTask.completed x)
                                && past (StudyTask.date x)) tasks))).
Proof.
  revert c t m. induction tasks as [|x r IH]; intros c t m.
  - simpl. now rewrite !Z.add_0_r.
  - cbn [fold_left]. unfold countTask at 2. rewrite IH.
    cbn [List.filter].
    destruct (StudyTask.completed x); cbn [negb andb];
      [|destruct (past (StudyTask.date x))]; cbn [length];
      (apply (f_equal2 pair); [apply (f_equal2 pair)|]; lia).
Qed.

Lemma disjoint_filters (tasks : list StudyTask.t) :
  (length (List.filter StudyTask.completed tasks)
   + length (List.filter
               (fun x => negb (StudyTask.completed x)
                         && past (StudyTask.date x)) tasks)
   <= length tasks)%nat.
Proof.
  induction tasks as [|x r IH]; simpl; [lia|].
  destruct (StudyTask.completed x); simpl;
    [|destruct (past (StudyTask.date x))]; simpl; lia.
Qed.

(** X16. The scan of a loaded plan counts every task of every week
    once: the total is the number of tasks of the plan, the completed
    count the number of completed ones, and the missed count the number
    of tasks that are not completed and dated before today. The counts
    are never negative and completed plus missed never exceeds the
    total. *)
Theorem plan_counts (plan : StudyPlan) :
  let tasks := allTasks plan in
  planCounts past plan
  = (Z.of_nat (length (List.filter StudyTask.completed tasks)),
     Z.of_nat (length tasks),
     Z.of_nat
       (length (List.filter
                  (fun x => negb (StudyTask.completed x)
                            && past (StudyTask.date x)) tasks)))
  /\ 0 <= fst (fst (planCounts past plan))
  /\ 0 <= snd (planCounts past plan)
  /\ fst (fst (planCounts past plan)) + snd (planCounts past plan)
     <= snd (fst (planCounts past plan)).
Proof.
  intros tasks.
  assert (H : planCounts past plan
              = (Z.of_nat (length (List.filter StudyTask.completed tasks)),
                 Z.of_nat (length tasks),
                 Z.of_nat
                   (length (List.filter
                              (fun x => negb (StudyTask.completed x)
                                        && past (StudyTask.date x)) tasks)))).
  { unfold planCounts. rewrite fold_weeks, fold_countTask. reflexivity. }
  split; [exact H|]. rewrite H. cbn [fst snd].
  pose proof (disjoint_filters tasks). lia.
Qed.




End PlanStatistics.

Section PlanStatisticsWitness.

Import StudyPlanPage Wizard.


End PlanStatisticsWitness.

(** ** Requests of the loading effect *)

Section LoadingRequests.

Import StudyPlanPage Wizard.

Lemma dispatch_chapters_length (clk : Clock) (s t : State) (e : event) :
  NoDup (completedChapters s) ->
  ends (dispatch clk s e) t ->
  NoDup (completedChapters t)
  /\ (length (completedChapters s) <= length (completedChapters t))%nat.
Proof.
  intros Hs H.
  apply dispatch_completed_chapters in H as [-> | [c ->]];
    [split; [exact Hs | lia]|].
  split; [apply NoDup_Set_of|].
  rewrite (Set_of_snoc _ c Hs). apply set_add_length.
Qed.

(** On step 10 at least three chapters are completed. *)
Lemma step_10_has_three_chapters (t : State) :
  reaches initialState t ->
  NoDup (completedChapters t)
  /\ (step t = 10 -> (3 <= length (completedChapters t))%nat).
Proof.
  induction 1 as [|clk e s1 s2 _ [IHn IH] He].
  - split; [constructor | discriminate].
  - destruct (dispatch_chapters_length clk s1 s2 e IHn He) as [Hn Hl].
    split; [exact Hn|]. intros H10.
    destruct (Z.eq_dec (step s1) 10) as [E | E].
    + specialize (IH E). lia.
    + destruct (dispatch_enters_step_10 clk s1 s2 e He E H10) as [_ H3]. lia.
Qed.

Lemma lastThree_suffix (l : list string) :
  (3 <= length l)%nat ->
  length (lastThree l) = 3%nat
  /\ l = take (length l - 3) l ++ lastThree l.
Proof.
  intros H. unfold lastThree. split.
  - rewrite length_drop. lia.
  - now rewrite take_drop.
Qed.

(** X18. Whenever the wizard, started from its first render, is on step
    10, the loading effect does request the three-chapter quiz, and the
    request names exactly three chapters: the three completed last,
    pairwise different. *)
Theorem three_chapter_quiz_request (t : State) (chapters : list Chapter) :
  reaches initialState t -> step t = 10 ->
  exists l,
    fetchData t chapters
    = Some (PostQuizThreeChapter (board t) (classNum t) (selectedSubject t)
              l (knowledgeLevel t))
    /\ length l = 3%nat
    /\ NoDup l
    /\ exists earlier, completedChapters t = earlier ++ l.
Proof.
  intros Hr H10.
  destruct (step_10_has_three_chapters t Hr) as [Hn H3].
  specialize (H3 H10).
  destruct (lastThree_suffix (completedChapters t) H3) as [Hlen Hsuf].
  exists (lastThree (completedChapters t)). split; [|split; [|split]].
  - unfold fetchData. rewrite H10. cbn [Z.eqb andb].
    apply Nat.leb_le in H3. now rewrite H3.
  - exact Hlen.
  - unfold lastThree. exact (sublist_NoDup _ _ Hn (sublist_drop _ _)).
  - eexists. exact Hsuf.
Qed.

Lemma three_chapter_quiz_request_witness :
  let done i ch :=
    StudyTask.mk i "Basics" "Physics" "Intro" "2025-01-06" 1 "easy" "learn"
      "10 XP" "Read the section" true 100 ch in
  let plan : StudyPlan :=
    [("1", [done 1 "Motion"; done 2 "Force"; done 3 "Energy"])] in
  let srv := Examples.accepting plan in
  let go s e := snd (run srv (dispatch Examples.clock s e)) in
  let t := go (go (go (go (go initialState (QuizSubmit QuizType.initial))
                         (TaskComplete "1" 1)) (TaskComplete "1" 2))
                 (TaskComplete "1" 3)) (QuizSubmit QuizType.chapter) in
  reaches initialState t /\ step t = 10
  /\ completedChapters t = ["Motion"; "Force"; "Energy"]
  /\ exists l,
       fetchData t []
       = Some (PostQuizThreeChapter (board t) (classNum t) (selectedSubject t)
                 l (knowledgeLevel t))
       /\ length l = 3%nat.
Proof.
  intros done plan srv go t.
  assert (Hr : reaches initialState t).
  { unfold t, go.
    repeat (eapply reaches_next; [|apply run_ends]). apply reaches_here. }
  assert (H10 : step t = 10) by reflexivity.
  split; [exact Hr|]. split; [exact H10|]. split; [reflexivity|].
  destruct (three_chapter_quiz_request t [] Hr H10) as (l & Hf & Hl & _).
  exists l. split; [exact Hf | exact Hl].
Defined.

(** X19. What the student selected is what is requested. After a click
    on a task with a chapter and a topic the loading effect of step 7
    asks for the subtopics of that chapter and topic; after marks were
    submitted the effect of step 4 asks for the initial quiz over the
    names of all chapters at the level derived from the marks; on the
    steps 0, 3 and 5 and at the sign-in gate the effect sends nothing. *)
Theorem selections_reach_requests (s : State) (chapters : list Chapter) :
  (forall week taskId task,
      findTask (studyPlan s) week taskId = Some task ->
      StudyTask.chapter task <> "" -> StudyTask.topic task <> "" ->
      fetchData (onTaskClick s week taskId) chapters
      = Some (GetSubtopics (board s) (classNum s) (selectedSubject s)
                (Some (StudyTask.chapter task)) (Some (StudyTask.topic task))))
  /\ (forall m, previousMarks s = Some m ->
        fetchData (handleMarksSubmit s) chapters
        = Some (PostQuizInitial (board s) (classNum s) (selectedSubject s)
                  (map chapter_name chapters)
                  (knowledgeLevel (handleMarksSubmit s))))
  /\ (step s = 0 \/ step s = 3 \/ step s = 5 \/ step s = -1 ->
      fetchData s chapters = None).
Proof.
  split; [|split].
  - intros week taskId task Hfind Hc Ht. unfold onTaskClick. rewrite Hfind.
    unfold fetchData. cbn.
    apply truthy_true in Hc, Ht. now rewrite Hc, Ht.
  - intros m Hm. rewrite (handleMarksSubmit_level s m Hm). reflexivity.
  - intros H. unfold fetchData.
    destruct H as [-> | [-> | [-> | ->]]]; reflexivity.
Qed.

Lemma selections_reach_requests_witness :
  let s := Examples.atPlan (Examples.motionPlan true false false) in
  fetchData (onTaskClick s "1" 2) []
  = Some (GetSubtopics "" 9 "Physics" (Some "Motion") (Some "Kinematics")).
Proof.
  intros s.
  apply (proj1 (selections_reach_requests s []) "1" 2
           (Examples.motionTask 2 false) eq_refl); discriminate.
Defined.

End LoadingRequests.

(** ** Extra chapters and chat *)

Section ExtraChaptersAndChat.

Import StudyPlanPage Wizard.

(** X20. Ticking a chapter on step 5 flips whether it is among the extra
    chapters and changes that of no other chapter; ticking it twice
    leaves every chapter as it was. A list without repetitions stays
    without repetitions, and the step is not changed. *)
Theorem toggle_extra_chapter (s : State) (name : string) :
  (name ∈ extraChapters (toggleExtraChapter s name)
   <-> name ∉ extraChapters s)
  /\ (forall c, c <> name ->
        (c ∈ extraChapters (toggleExtraChapter s name)
         <-> c ∈ extraChapters s))
  /\ (forall c,
        c ∈ extraChapters (toggleExtraChapter (toggleExtraChapter s name) name)
        <-> c ∈ extraChapters s)
  /\ (NoDup (extraChapters s) ->
      NoDup (extraChapters (toggleExtraChapter s name)))
  /\ step (toggleExtraChapter s name) = step s.
Proof.
  assert (Hmem : forall l c,
             c ∈ List.filter (fun x => negb (x =? name)%string) l
             <-> c ∈ l /\ c <> name).
  { intros l c. rewrite !list_elem_of_In, filter_In, negb_true_iff.
    destruct (String.eqb_spec c name); intuition congruence. }
  assert (Hflip : forall u, name ∈ extraChapters (toggleExtraChapter u name)
                            <-> name ∉ extraChapters u).
  { intros u. unfold toggleExtraChapter.
    case_bool_decide as Hin; simpl.
    - rewrite Hmem. tauto.
    - rewrite elem_of_app, list_elem_of_singleton. tauto. }
  assert (Hother : forall u c, c <> name ->
             (c ∈ extraChapters (toggleExtraChapter u name)
              <-> c ∈ extraChapters u)).
  { intros u c Hc. unfold toggleExtraChapter.
    case_bool_decide as Hin; simpl.
    - rewrite Hmem. tauto.
    - rewrite elem_of_app, list_elem_of_singleton. tauto. }
  split; [apply Hflip|]. split; [apply Hother|]. split; [|split].
  - intros c. destruct (decide (c = name)) as [-> | Hc].
    + rewrite Hflip, Hflip.
      destruct (decide (name ∈ extraChapters s)); tauto.
    + now rewrite !Hother.
  - intros Hn. unfold toggleExtraChapter.
    case_bool_decide as Hin; simpl.
    + apply NoDup_ListNoDup, List.NoDup_filter. now apply NoDup_ListNoDup.
    + apply NoDup_app. split; [exact Hn|]. split; [|apply NoDup_singleton].
      intros c Hc Hc'. apply list_elem_of_singleton in Hc'. now subst.
  - unfold toggleExtraChapter. case_bool_decide; reflexivity.
Qed.

Lemma toggle_extra_chapter_witness :
  let s := setExtraChapters ["Optics"; "Heat"] initialState in
  NoDup (extraChapters s)
  /\ extraChapters (toggleExtraChapter s "Optics") = ["Heat"]
  /\ NoDup (extraChapters (toggleExtraChapter s "Optics")).
Proof.
  intros s.
  assert (H : NoDup (extraChapters s)).
  { apply NoDup_ListNoDup. repeat constructor; simpl; intuition discriminate. }
  split; [exact H|]. split; [reflexivity|].
  exact (proj1 (proj2 (proj2 (proj2 (toggle_extra_chapter s "Optics")))) H).
Defined.

(** X21. A chat message is sent only when a chapter, a topic and a
    subtopic are selected; otherwise the handler sets a local error and
    the history stays as it is. When it is sent, the request carries the
    three selections and the message; the answer of the tutor extends
    the history by exactly two entries, the message of the student and
    then the answer, and a rejection leaves the history as it is and
    sets an error. *)
Theorem chat_submit_contract (s : State) (history : list ChatMessage)
  (message : string) :
  (JS.truthy_opt (selectedChapter s) = false
   \/ JS.truthy_opt (selectedTopic s) = false
   \/ JS.truthy_opt (currentSubtopic s) = false ->
   handleChatSubmit s history message
   = ChatDone
       (setError
          (Some "Please select a chapter, topic, and subtopic before chatting")
          s)
       history)
  /\ (forall chapter topic subtopic,
        selectedChapter s = Some chapter -> chapter <> "" ->
        selectedTopic s = Some topic -> topic <> "" ->
        currentSubtopic s = Some subtopic -> subtopic <> "" ->
        exists body k,
          handleChatSubmit s history message = PostChat body k
          /\ cr_chapter body = Some chapter /\ cr_topic body = Some topic
          /\ cr_subtopic body = Some subtopic /\ cr_message body = message
          /\ cr_subject body = selectedSubject s
          /\ (forall response,
                k (Resolved response)
                = ChatDone s
                    (history ++ [ {| role := user; content := message |};
                                  {| role := assistant; content := response |} ]))
          /\ (forall detail,
                k (Rejected detail)
                = ChatDone
                    (setError
                       (Some (JS.or_else detail "Failed to get chat response"))
                       s)
                    history)).
Proof.
  unfold handleChatSubmit. split.
  - intros [H | [H | H]]; rewrite H; cbn [negb orb];
      rewrite ?orb_true_r; reflexivity.
  - intros chapter topic subtopic Hc Hc' Ht Ht' Hs Hs'.
    rewrite Hc, Ht, Hs. cbn [JS.truthy_opt].
    apply truthy_true in Hc', Ht', Hs'. rewrite Hc', Ht', Hs'. cbn [negb orb].
    eexists. eexists. split; [reflexivity|]. repeat split.
Qed.

Lemma chat_submit_contract_witness :
  let s := onTaskClick (Examples.atPlan (Examples.motionPlan true false false))
             "1" 2 in
  exists body k,
    handleChatSubmit s [] "What is speed?" = PostChat body k
    /\ cr_chapter body = Some "Motion"
    /\ k (Resolved "Distance over time.")
       = ChatDone s [ {| role := user; content := "What is speed?" |};
                      {| role := assistant; content := "Distance over time." |} ].
Proof.
  intros s.
  destruct (proj2 (chat_submit_contract s [] "What is speed?")
              "Motion" "Kinematics" "Speed" eq_refl ltac:(discriminate)
              eq_refl ltac:(discriminate) eq_refl ltac:(discriminate))
    as (body & k & H & Hc & _ & _ & _ & _ & Hok & _).
  exists body, k. split; [exact H|]. split; [exact Hc|]. apply Hok.
Defined.

End ExtraChaptersAndChat.

(** ** Signing in and out *)

Section SignInAndOut.

Import StudyPlanPage Auth.

(** X22. A logout the collaborator accepts removes the token and the
    user from the storage (and nothing else), closes the session and
    shows the sign-in gate at step -1; the rest of the wizard state -
    plan, weak and completed chapters, answers - is not reset. A logout
    the collaborator rejects changes nothing but the error: the token
    stays stored and the student stays signed in. *)
Theorem logout_contract (x : Session) (onAuth : result AuthData) :
  (let y := runAuth onAuth (Resolved tt) (handleLogout x) in
   localStorage y !! "jwt" = None
   /\ localStorage y !! "user" = None
   /\ (forall key, key <> "jwt" -> key <> "user" ->
         localStorage y !! key = localStorage x !! key)
   /\ user y = None /\ authModalOpen y = true
   /\ wizard y = setStep (-1) (wizard x)
   /\ studyPlan (wizard y) = studyPlan (wizard x)
   /\ weakChapters (wizard y) = weakChapters (wizard x)
   /\ completedChapters (wizard y) = completedChapters (wizard x)
   /\ (forall ty, answersOf (wizard y) ty = answersOf (wizard x) ty))
  /\ (forall detail,
        let y := runAuth onAuth (Rejected detail) (handleLogout x) in
        localStorage y = localStorage x
        /\ user y = user x /\ authModalOpen y = authModalOpen x
        /\ step (wizard y) = step (wizard x)
        /\ error (wizard y) = Some (JS.or_else detail "Failed to logout")).
Proof.
  split.
  - cbn.
    split; [rewrite lookup_delete_ne by discriminate; apply lookup_delete_eq|].
    split; [apply lookup_delete_eq|].
    split; [intros key H1 H2; now rewrite !lookup_delete_ne by congruence|].
    repeat split.
  - intros detail. cbn. repeat split.
Qed.



End SignInAndOut.
